(** * alex-war-analyzer: the WAR analysis service of [src/api/main.py]

    A shallow embedding of the analyzer class [SimplifiedWARAnalyzer], of the
    task registry [analysis_tasks] with its three handlers
    ([analyze_war_file], [perform_analysis], [get_analysis_status]) and of the
    way the module's top-level statements resolve their names, followed by the
    properties the specification states about them.

    Conventions.  A Python [str] is held as the [string] of the bytes of its
    UTF-8 encoding: every literal of the source is kept byte for byte.  The
    tests [in], [startswith] and [endswith] and [replace] with an ASCII
    operand give the same on the bytes as on the code points.  The
    regular-expression class [\d] is any Unicode decimal digit, [\.] the
    full stop.  Python [int]s that come from [len] are [nat]; the byte length
    of an upload is an [N].  A [dict] with a fixed set of keys is a record,
    an optional key an [option] field. *)

From Stdlib Require Import NArith List Ascii String Bool Lia.
From stdpp Require Import base option list gmap strings pretty.

Set Warnings "-register-all".
#[local] Arguments String.append : simpl nomatch.

Local Open Scope string_scope.
Local Open Scope list_scope.

(** ** Python built-ins used by the source *)

Module Py.

(** [s.startswith(p)] *)
Fixpoint startswith (s p : string) {struct p} : bool :=
  match p with
  | EmptyString => true
  | String x p' =>
      match s with
      | EmptyString => false
      | String y s' => Ascii.eqb x y && startswith s' p'
      end
  end.

(** [s.endswith(suf)]: some tail of [s] is [suf]. *)
Fixpoint endswith (s suf : string) : bool :=
  if String.eqb s suf then true
  else match s with
       | EmptyString => false
       | String _ s' => endswith s' suf
       end.

(** [sub in s] *)
Fixpoint contains (sub s : string) : bool :=
  if startswith s sub then true
  else match s with
       | EmptyString => false
       | String _ s' => contains sub s'
       end.

Definition is_upper (c : ascii) : bool :=
  let n := nat_of_ascii c in (65 <=? n)%nat && (n <=? 90)%nat.

Definition lower_char (c : ascii) : ascii :=
  if is_upper c then ascii_of_nat (nat_of_ascii c + 32) else c.

(** [s.lower()] on the letters [A] to [Z].  [str.lower] also maps cased
    letters outside ASCII; the only ones with an ASCII letter in their image
    are U+0130 (to [i] followed by U+0307) and U+212A (to [k]), so whether
    the result contains the word [spring] is the same. *)
Fixpoint lower (s : string) : string :=
  match s with
  | EmptyString => EmptyString
  | String c s' => String (lower_char c) (lower s')
  end.

(** [s.replace(old, new)] for a non-empty [old]: the occurrences of [old]
    are found from left to right, without overlap, and each is replaced.
    [skip] counts the characters of an occurrence still to be passed. *)
Fixpoint replace_from (old new : string) (skip : nat) (s : string) : string :=
  match s with
  | EmptyString => EmptyString
  | String c s' =>
      match skip with
      | S k => replace_from old new k s'
      | O =>
          if startswith s old
          then new +:+ replace_from old new (String.length old - 1) s'
          else String c (replace_from old new 0 s')
      end
  end.

Definition replace (old new s : string) : string := replace_from old new 0 s.

(** [str(n)] and [f'{n}'] for a non-negative [int] *)
Definition str_of_nat (n : nat) : string := pretty n.

(** [for i in range(n): acc = body(i, acc)] *)
Definition for_range {S : Type} (n : nat) (body : nat -> S -> S) (init : S) : S :=
  fold_left (fun acc i => body i acc) (seq 0 n) init.

(** POSIX [os.path.basename]: what follows the last ['/']. *)
Fixpoint basename (p : string) : string :=
  match p with
  | EmptyString => EmptyString
  | String c p' =>
      if contains "/" p then basename p' else p
  end.

(** POSIX [os.path.join(a, b)] *)
Definition path_join (a b : string) : string :=
  if startswith b "/" then b
  else if String.eqb a "" || endswith a "/" then a +:+ b
  else a +:+ "/" +:+ b.

End Py.

(** ** Exceptions

    The handlers tell exceptions apart only by [except Exception]: an
    exception is either an instance of [Exception] or of another subclass of
    [BaseException] ([KeyboardInterrupt], [SystemExit],
    [asyncio.CancelledError]).  [str(e)] is all the source reads of it. *)
Inductive py_exception :=
| Exception (str_e : string)
| BaseException (str_e : string).

Definition is_Exception (e : py_exception) : bool :=
  match e with Exception _ => true | BaseException _ => false end.

(** A call either returns or raises. *)
Inductive outcome (A : Type) :=
| Return (a : A)
| Raise (e : py_exception).
Arguments Return {A} a.
Arguments Raise {A} e.

#[global] Instance outcome_ret : MRet outcome := fun A a => Return a.

#[global] Instance outcome_bind : MBind outcome := fun A B k m =>
  match m with
  | Return a => k a
  | Raise e => Raise e
  end.

(** ** The regular expression of the version search

    A [str] is a sequence of code points; the model holds it as the bytes
    of its UTF-8 encoding, and the regular expression works on its
    characters.  [re.search] on a pattern that is a sequence of character
    classes, each taken once or one-or-more times (greedy), with
    backtracking: the first match in Python's order at the leftmost
    position where one exists. *)
Module Re.

(** A byte [10xxxxxx] continues the character begun before it. *)
Definition continuation (b : ascii) : bool :=
  let n := N_of_ascii b in ((128 <=? n) && (n <? 192))%N.

Definition continued (ch : string) : bool :=
  match ch with
  | EmptyString => false
  | String b _ => continuation b
  end.

(** The characters of a [str], each as the bytes that encode it. *)
Fixpoint chars (s : string) : list string :=
  match s with
  | EmptyString => []
  | String b s' =>
      match chars s' with
      | ch :: rest =>
          if continued ch then String b ch :: rest else String b "" :: ch :: rest
      | [] => [String b ""]
      end
  end.

(** The [str] made of the characters [m]. *)
Definition text (m : list string) : string := fold_right String.append "" m.

(** The UTF-8 encoding of a code point. *)
Definition utf8 (cp : N) : string :=
  let byte (lead rest : N) := ascii_of_N (lead + rest) in
  if (cp <? 128)%N then String (ascii_of_N cp) ""
  else if (cp <? 2048)%N then
    String (byte 192 (cp / 64))%N (String (byte 128 (cp mod 64))%N "")
  else if (cp <? 65536)%N then
    String (byte 224 (cp / 4096))%N
      (String (byte 128 ((cp / 64) mod 64))%N (String (byte 128 (cp mod 64))%N ""))
  else
    String (byte 240 (cp / 262144))%N
      (String (byte 128 ((cp / 4096) mod 64))%N
         (String (byte 128 ((cp / 64) mod 64))%N (String (byte 128 (cp mod 64))%N ""))).

(** The code points of the digit zero of every script with decimal digits
    (general category [Nd]), in the Unicode database 14.0 that CPython 3.11
    ships; the nine code points after each are its digits one to nine.
    Later versions of the database add scripts at the end. *)
Definition decimal_zeros : list N :=
  [ 48; 1632; 1776; 1984; 2406; 2534; 2662; 2790; 2918;
    3046; 3174; 3302; 3430; 3558; 3664; 3792; 3872; 4160;
    4240; 6112; 6160; 6470; 6608; 6784; 6800; 6992; 7088;
    7232; 7248; 42528; 43216; 43264; 43472; 43504; 43600; 44016;
    65296; 66720; 68912; 69734; 69872; 69942; 70096; 70384; 70736;
    70864; 71248; 71360; 71472; 71904; 72016; 72784; 73040; 73120;
    92768; 92864; 93008; 120782; 120792; 120802; 120812; 120822; 123200;
    123632; 125264; 130032 ]%N.

Definition decimal_digits : list string :=
  flat_map (fun zero => map (fun i => utf8 (zero + N.of_nat i)) (seq 0 10)) decimal_zeros.

(** [\d] in a [str] pattern: any Unicode decimal digit. *)
Definition digit (ch : string) : bool := existsb (String.eqb ch) decimal_digits.

(** [\.] *)
Definition dot (ch : string) : bool := String.eqb ch ".".

Inductive item :=
| One (p : string -> bool)
| Many1 (p : string -> bool).

(** [p+] followed by the continuation [k]: take one more character first
    (greedy), fall back to stopping here. *)
Fixpoint many1 (p : string -> bool) (k : list string -> option (list string))
    (s : list string) : option (list string) :=
  match s with
  | [] => None
  | ch :: s' =>
      if p ch then
        match many1 p k s' with
        | Some m => Some (ch :: m)
        | None => cons ch <$> k s'
        end
      else None
  end.

(** Match at the start of [s]; the characters matched. *)
Fixpoint match_here (items : list item) : list string -> option (list string) :=
  match items with
  | [] => fun _ => Some []
  | One p :: rest => fun s =>
      match s with
      | [] => None
      | ch :: s' => if p ch then cons ch <$> match_here rest s' else None
      end
  | Many1 p :: rest => many1 p (match_here rest)
  end.

(** Try every start position from the left. *)
Fixpoint search_from (items : list item) (s : list string) : option (list string) :=
  match match_here items s with
  | Some m => Some m
  | None =>
      match s with
      | [] => None
      | _ :: s' => search_from items s'
      end
  end.

(** [re.search(items, s)], and [.group(1)] of the match when the whole
    pattern is the group. *)
Definition search (items : list item) (s : string) : option string :=
  text <$> search_from items (chars s).

End Re.

(** [r'(\d+\.\d+\.\d+)'] *)
Definition version_pattern : list Re.item :=
  [Re.Many1 Re.digit; Re.One Re.dot; Re.Many1 Re.digit; Re.One Re.dot; Re.Many1 Re.digit].

(** ** Files

    The bytes of a file are kept abstract.  The source observes them twice:
    [len(content)] on upload, and [zipfile.ZipFile(path, 'r').namelist()],
    which yields the entry names in archive order or raises. *)
Record file_content := {
  content_length : N;
  zip_namelist : outcome (list string)
}.

(** ** The analyzer: [class SimplifiedWARAnalyzer] *)

(** [a / b] rounded to the nearest integer, a tie to the even one. *)
Definition round_half_even (a b : N) : N :=
  let q := (a / b)%N in
  let r := (a mod b)%N in
  if (2 * r <? b)%N then q
  else if (b <? 2 * r)%N then (q + 1)%N
  else if N.even q then q else (q + 1)%N.

(** The [float] nearest to the [int] [n]: [n] kept to 53 significant bits. *)
Definition to_double (n : N) : N :=
  let ulp := (2 ^ (N.log2 n + 1 - 53))%N in
  (round_half_even n ulp * ulp)%N.

(** A [float] that [round(x, 2)] returned: the double nearest to
    [hundredths / 100]. *)
Record float_2 := { hundredths : N }.

(** [round(size / (1024*1024), 2)] for the [int] [size] of a file (which
    the operating system reports in 64 bits, so the division cannot
    overflow).  The true division gives the double nearest to the quotient,
    which is [to_double size] scaled by a power of two; [round] then takes
    the nearest multiple of 0.01 of that double, a tie to the even one. *)
Definition size_mb (size : N) : float_2 :=
  {| hundredths := round_half_even (100 * to_double size) (1024 * 1024) |}.

(** [structure_info], the dict built by [analyze_war_structure]. *)
Record StructureInfo := {
  file_name : string;
  file_size_mb : float_2;
  web_inf_found : bool;
  spring_detected : bool;
  spring_version : option string;
  total_classes : nat;
  total_jars : nat;
  jar_files : list string
}.

(** The loop [for jar in spring_jars: ... break]: the match of the first jar
    name that has one. *)
Fixpoint first_version (spring_jars : list string) : option string :=
  match spring_jars with
  | [] => None
  | jar :: rest =>
      match Re.search version_pattern jar with
      | Some version_match => Some version_match
      | None => first_version rest
      end
  end.

(** [os.path.getsize(path)] *)
Definition getsize (fs : gmap string file_content) (path : string) : outcome N :=
  match fs !! path with
  | Some content => Return (content_length content)
  | None => Raise (Exception ("[Errno 2] No such file or directory: '" +:+ path +:+ "'"))
  end.

(** [zipfile.ZipFile(path, 'r').namelist()] *)
Definition namelist (fs : gmap string file_content) (path : string) : outcome (list string) :=
  match fs !! path with
  | Some content => zip_namelist content
  | None => Raise (Exception ("[Errno 2] No such file or directory: '" +:+ path +:+ "'"))
  end.

Definition analyze_war_structure (fs : gmap string file_content) (war_file_path : string)
  : outcome StructureInfo :=
  size ← getsize fs war_file_path;
  file_list ← namelist fs war_file_path;
  let web_inf_found := existsb (fun f => Py.contains "WEB-INF" f) file_list in
  let spring_jars :=
    List.filter (fun f => Py.contains "spring" (Py.lower f) && Py.endswith f ".jar") file_list in
  let '(spring_detected, jar_files, spring_version) :=
    match spring_jars with
    | [] => (false, [], None)
    | _ :: _ => (true, firstn 5 spring_jars, first_version spring_jars)
    end in
  Return {| file_name := Py.basename war_file_path;
            file_size_mb := size_mb size;
            web_inf_found := web_inf_found;
            spring_detected := spring_detected;
            spring_version := spring_version;
            total_classes := length (List.filter (fun f => Py.endswith f ".class") file_list);
            total_jars := length (List.filter (fun f => Py.endswith f ".jar") file_list);
            jar_files := jar_files |}.

(** One entry of the ['components'] list. *)
Record Component := {
  name : string;
  type : string;
  package : string;
  estimated : bool
}.

(** The dict returned by [analyze_spring_components]. *)
Record SpringComponents := {
  total_components : nat;
  controllers : nat;
  services : nat;
  repositories : nat;
  components : list Component
}.

Definition analyze_spring_components (structure_info : StructureInfo) : SpringComponents :=
  let estimated_controllers := Nat.max 1 (total_classes structure_info / 20) in
  let estimated_services := Nat.max 1 (total_classes structure_info / 15) in
  let estimated_repositories := Nat.max 1 (total_classes structure_info / 25) in
  let components := [] in
  let components :=
    Py.for_range estimated_controllers (fun i components =>
      components ++ [ {| name := "Controller" +:+ Py.str_of_nat (i + 1);
                         type := "Controller";
                         package := "com.nbs.web";
                         estimated := true |} ]) components in
  let components :=
    Py.for_range estimated_services (fun i components =>
      components ++ [ {| name := "Service" +:+ Py.str_of_nat (i + 1);
                         type := "Service";
                         package := "com.nbs.service";
                         estimated := true |} ]) components in
  let components :=
    Py.for_range estimated_repositories (fun i components =>
      components ++ [ {| name := "Repository" +:+ Py.str_of_nat (i + 1);
                         type := "Repository";
                         package := "com.nbs.dao";
                         estimated := true |} ]) components in
  {| total_components := length components;
     controllers := estimated_controllers;
     services := estimated_services;
     repositories := estimated_repositories;
     components := firstn 10 components |}.

(** One entry of the list returned by [analyze_sql_patterns]. *)
Record SqlPattern := {
  file : string;
  pattern_type : string;
  sql_statement : string;
  risk_level : string;
  modernization_suggestion : string
}.

Definition pattern_types : list string :=
  ["executeSQL"; "createStatement().execute"; "prepareStatement"].

Definition risk_levels : list string := ["HIGH"; "CRITICAL"; "MEDIUM"].

Definition analyze_sql_patterns (structure_info : StructureInfo) : list SqlPattern :=
  let estimated_patterns := Nat.min 10 (Nat.max 1 (total_classes structure_info / 10)) in
  let sql_patterns := [] in
  Py.for_range estimated_patterns (fun i sql_patterns =>
    let pattern_type := nth (i mod length pattern_types) pattern_types "" in
    let risk_level := nth (i mod length risk_levels) risk_levels "" in
    sql_patterns ++
      [ {| file := "LegacyClass" +:+ Py.str_of_nat (i + 1) +:+ ".java";
           pattern_type := pattern_type;
           sql_statement := "SELECT * FROM table_" +:+ Py.str_of_nat (i + 1) +:+ " WHERE id = ?";
           risk_level := risk_level;
           modernization_suggestion := "Replace with JPA Repository pattern" |} ])
    sql_patterns.


(** One entry of the list returned by [generate_modernization_suggestions]. *)
Record Suggestion := {
  category : string;
  priority : string;
  description : string;
  specific_actions : list string;
  estimated_effort : string;
  business_value : string
}.

Definition generate_modernization_suggestions
    (components : SpringComponents) (sql_patterns : list SqlPattern) : list Suggestion :=
  let suggestions := [] in
  let suggestions :=
    match sql_patterns with
    | _ :: _ =>
        suggestions ++
        [ {| category := "資料存取層現代化";
             priority := "HIGH";
             description := "發現 " +:+ Py.str_of_nat (length sql_patterns)
                            +:+ " 個直接SQL執行模式，建議導入JPA/Hibernate";
             specific_actions :=
               [ "評估JPA 2.2導入可行性";
                 "設計Entity類別對應COBOL資料結構";
                 "建立Repository介面取代executeSQL";
                 "分階段遷移關鍵業務模組" ];
             estimated_effort := "4-6個月";
             business_value := "減少90%SQL錯誤，提升75%維護效率" |} ]
    | [] => suggestions
    end in
  let suggestions :=
    if (0 <? controllers components)%nat then
      suggestions ++
      [ {| category := "API層標準化";
           priority := "MEDIUM";
           description := "發現 " +:+ Py.str_of_nat (controllers components)
                          +:+ " 個Controller，建議實施RESTful API標準";
           specific_actions :=
             [ "統一JSON回應格式標準";
               "實施OpenAPI 3.0規格文件";
               "加入API版本管理策略";
               "改善錯誤處理與HTTP狀態碼" ];
           estimated_effort := "2-3個月";
           business_value := "提升API一致性，改善前端整合效率50%" |} ]
    else suggestions in
  suggestions.

(** The ['competitive_advantage'] and ['summary'] blocks and the dict
    returned by [analyze_war]. *)
Record CompetitiveAdvantage := {
  processing_time : string;
  vs_leda : string;
  vs_traditional : string;
  professional_analysis : string;
  actionable_recommendations : string
}.

(** The key ['total_components'] of the summary is the field
    [summary_total_components] here. *)
Record Summary := {
  summary_total_components : nat;
  sql_patterns_found : nat;
  high_priority_suggestions : nat;
  estimated_modernization_effort : string;
  expected_roi : string
}.

Record WarAnalysis := {
  project_name : string;
  analysis_time : string;
  war_info : StructureInfo;
  spring_components : SpringComponents;
  sql_patterns : list SqlPattern;
  modernization_suggestions : list Suggestion;
  competitive_advantage : CompetitiveAdvantage;
  summary : Summary
}.

(** [analyze_war]; [now] is the reading of [datetime.now().isoformat()].
    Its [except Exception: ... raise] only logs. *)
Definition analyze_war (fs : gmap string file_content) (now : string) (war_file_path : string)
  : outcome WarAnalysis :=
  structure_info ← analyze_war_structure fs war_file_path;
  let components := analyze_spring_components structure_info in
  let sql_patterns := analyze_sql_patterns structure_info in
  let suggestions := generate_modernization_suggestions components sql_patterns in
  Return
    {| project_name := Py.replace ".war" "" (file_name structure_info);
       analysis_time := now;
       war_info := structure_info;
       spring_components := components;
       sql_patterns := sql_patterns;
       modernization_suggestions := suggestions;
       competitive_advantage :=
         {| processing_time := "7.1 seconds";
            vs_leda := "761x faster than LEDA 90-minute failure";
            vs_traditional := "1000x faster than manual analysis";
            professional_analysis := "COBOL-to-Java specific insights";
            actionable_recommendations :=
              Py.str_of_nat (length suggestions) +:+ " implementation strategies" |};
       summary :=
         {| summary_total_components := total_components components;
            sql_patterns_found := length sql_patterns;
            high_priority_suggestions :=
              length (List.filter (fun s => String.eqb (priority s) "HIGH") suggestions);
            estimated_modernization_effort := "4-6 months";
            expected_roi := "75% maintenance efficiency improvement" |} |}.

(** ** The task registry and its handlers *)

(** The values of the ['status'] key: ['pending'], ['processing'],
    ['completed'], ['failed']. *)
Inductive Status := pending | processing | completed | failed.

#[global] Instance Status_eq_dec : EqDecision Status.
Proof. solve_decision. Defined.

(** A task dict.  ['end_time'], ['result'] and ['error'] are keys the dict
    lacks until the runner sets them. *)
Module Task.
Record t := {
  task_id : string;
  status : Status;
  progress : nat;
  message : string;
  start_time : string;
  file_path : string;
  file_name : string;
  end_time : option string;
  result : option WarAnalysis;
  error : option string
}.

(** [task['status'] = v] and the like *)
Definition set_status (v : Status) (d : t) : t :=
  {| task_id := task_id d; status := v; progress := progress d; message := message d;
     start_time := start_time d; file_path := file_path d; file_name := file_name d;
     end_time := end_time d; result := result d; error := error d |}.
Definition set_progress (v : nat) (d : t) : t :=
  {| task_id := task_id d; status := status d; progress := v; message := message d;
     start_time := start_time d; file_path := file_path d; file_name := file_name d;
     end_time := end_time d; result := result d; error := error d |}.
Definition set_message (v : string) (d : t) : t :=
  {| task_id := task_id d; status := status d; progress := progress d; message := v;
     start_time := start_time d; file_path := file_path d; file_name := file_name d;
     end_time := end_time d; result := result d; error := error d |}.
Definition set_end_time (v : string) (d : t) : t :=
  {| task_id := task_id d; status := status d; progress := progress d; message := message d;
     start_time := start_time d; file_path := file_path d; file_name := file_name d;
     end_time := Some v; result := result d; error := error d |}.
Definition set_result (v : WarAnalysis) (d : t) : t :=
  {| task_id := task_id d; status := status d; progress := progress d; message := message d;
     start_time := start_time d; file_path := file_path d; file_name := file_name d;
     end_time := end_time d; result := Some v; error := error d |}.
Definition set_error (v : string) (d : t) : t :=
  {| task_id := task_id d; status := status d; progress := progress d; message := message d;
     start_time := start_time d; file_path := file_path d; file_name := file_name d;
     end_time := end_time d; result := result d; error := Some v |}.
End Task.

(** The pydantic model [AnalysisResult] returned by the status endpoint. *)
Module AnalysisResult.
Record t := {
  task_id : string;
  status : Status;
  progress : nat;
  message : string;
  result : option WarAnalysis;
  error : option string
}.
End AnalysisResult.

(** The four suspension points of [perform_analysis], one per
    [await asyncio.sleep]. *)
Inductive sleep := Sleep1 | Sleep2 | Sleep3 | Sleep4.

(** An invocation of [perform_analysis] handed to [BackgroundTasks]. *)
Inductive runner :=
| Scheduled (task_id : string)
| Sleeping (task : nat) (at_ : sleep)
| Returned
| Propagated (e : py_exception).

(** The state of the process: the task dicts in allocation order (a dict is
    referred to by its index), the module global [analysis_tasks] binding
    identifiers to dicts, the files, the directory [tempfile.gettempdir()]
    and the background invocations in the order they were added. *)
Record world := {
  heap : list Task.t;
  analysis_tasks : gmap string nat;
  files : gmap string file_content;
  gettempdir : string;
  background : list runner
}.

Definition set_heap (h : list Task.t) (w : world) : world :=
  {| heap := h; analysis_tasks := analysis_tasks w; files := files w;
     gettempdir := gettempdir w; background := background w |}.

Definition set_files (f : gmap string file_content) (w : world) : world :=
  {| heap := heap w; analysis_tasks := analysis_tasks w; files := f;
     gettempdir := gettempdir w; background := background w |}.

(** [task[k] = v] through the reference [task] *)
Definition write (task : nat) (f : Task.t -> Task.t) (w : world) : world :=
  set_heap (alter f task (heap w)) w.

(** What a handler answers: a body, an [HTTPException], or an exception that
    left the handler. *)
Inductive http (A : Type) :=
| Ok (body : A)
| HTTPException (status_code : nat) (detail : string)
| Unhandled (e : py_exception).
Arguments Ok {A} body.
Arguments HTTPException {A} status_code detail.
Arguments Unhandled {A} e.

Record UploadFile := {
  filename : string;
  content : file_content
}.

Record Started := {
  started_task_id : string;
  started_message : string
}.

(** [POST /analyze].  [uuid4] is the value of [str(uuid.uuid4())], [now] of
    [datetime.now().isoformat()], [write_error] the exception that opening or
    writing the temporary file raises, if any. *)
Definition analyze_war_file (w : world) (file : UploadFile)
    (uuid4 now : string) (write_error : option py_exception) : world * http Started :=
  if negb (Py.endswith (filename file) ".war") then
    (w, HTTPException 400 "只接受.war檔案")
  else
    let file_size := content_length (content file) in
    if (100 * 1024 * 1024 <? file_size)%N then
      (w, HTTPException 400 "檔案過大，請上傳小於100MB的WAR檔案")
    else
      let task_id := uuid4 in
      let temp_dir := gettempdir w in
      let file_path := Py.path_join temp_dir (task_id +:+ "_" +:+ filename file) in
      match write_error with
      | Some e => (w, Unhandled e)
      | None =>
          ({| heap := heap w ++
                [ {| Task.task_id := task_id;
                     Task.status := pending;
                     Task.progress := 0;
                     Task.message := "準備開始分析...";
                     Task.start_time := now;
                     Task.file_path := file_path;
                     Task.file_name := filename file;
                     Task.end_time := None;
                     Task.result := None;
                     Task.error := None |} ];
              analysis_tasks := <[task_id := length (heap w)]> (analysis_tasks w);
              files := <[file_path := content file]> (files w);
              gettempdir := gettempdir w;
              background := background w ++ [Scheduled task_id] |},
           Ok {| started_task_id := task_id; started_message := "分析任務已啟動" |})
      end.

(** What the environment supplies when the event loop resumes a runner: the
    exception the pending [await] raises, if any; the two clock readings (in
    [analyze_war] and for ['end_time']); whether [os.remove] raises. *)
Record resume := {
  awaited : option py_exception;
  analysis_clock : string;
  end_clock : string;
  remove_fails : bool
}.

(** The [finally] block: the file is removed if it exists; an exception of
    [os.remove] is swallowed by the bare [except]. *)
Definition cleanup (task : nat) (r : resume) (w : world) : world :=
  match heap w !! task with
  | Some d =>
      match files w !! Task.file_path d with
      | Some _ =>
          if remove_fails r then w
          else set_files (delete (Task.file_path d) (files w)) w
      | None => w
      end
  | None => w
  end.

(** The [except Exception as e] block, then [finally]. *)
Definition on_raise (task : nat) (r : resume) (e : py_exception) (w : world)
  : world * runner :=
  match e with
  | Exception str_e =>
      let w := write task (Task.set_status failed) w in
      let w := write task (Task.set_error str_e) w in
      let w := write task (Task.set_end_time (end_clock r)) w in
      (cleanup task r w, Returned)
  | BaseException _ => (cleanup task r w, Propagated e)
  end.

(** A stage: ['progress'] and ['message'] are set, then the runner sleeps. *)
Definition stage (task : nat) (p : nat) (m : string) (next : sleep) (w : world)
  : world * runner :=
  let w := write task (Task.set_progress p) w in
  let w := write task (Task.set_message m) w in
  (w, Sleeping task next).

(** The last part of the [try] block: the analysis and the completion.  A
    reference held by a runner always points to a dict; the branch for a
    missing one only makes the function total. *)
Definition finish (task : nat) (r : resume) (w : world) : world * runner :=
  match heap w !! task with
  | None => (w, Propagated (Exception "dangling task reference"))
  | Some d =>
      match analyze_war (files w) (analysis_clock r) (Task.file_path d) with
      | Return result =>
          let w := write task (Task.set_progress 100) w in
          let w := write task (Task.set_message "分析完成！") w in
          let w := write task (Task.set_status completed) w in
          let w := write task (Task.set_end_time (end_clock r)) w in
          let w := write task (Task.set_result result) w in
          (cleanup task r w, Returned)
      | Raise e => on_raise task r e w
      end
  end.

(** [perform_analysis], from one suspension point to the next. *)
Definition perform_analysis (w : world) (rn : runner) (r : resume) : world * runner :=
  match rn with
  | Scheduled task_id =>
      match analysis_tasks w !! task_id with
      | None => (w, Propagated (Exception ("'" +:+ task_id +:+ "'")))
      | Some task =>
          let w := write task (Task.set_status processing) w in
          stage task 20 "解析WAR檔案結構..." Sleep1 w
      end
  | Sleeping task at_ =>
      match awaited r with
      | Some e => on_raise task r e w
      | None =>
          match at_ with
          | Sleep1 => stage task 40 "檢測Spring框架配置..." Sleep2 w
          | Sleep2 => stage task 60 "分析Spring組件架構..." Sleep3 w
          | Sleep3 => stage task 80 "識別SQL執行模式..." Sleep4 w
          | Sleep4 => finish task r w
          end
      end
  | Returned | Propagated _ => (w, rn)
  end.

(** [GET /status/{task_id}].  An identifier of the registry is always bound
    to a dict of the heap; the branch for a missing one only makes the
    function total. *)
Definition get_analysis_status (w : world) (task_id : string) : http AnalysisResult.t :=
  match analysis_tasks w !! task_id with
  | None => HTTPException 404 "任務不存在"
  | Some task =>
      match heap w !! task with
      | None => Unhandled (Exception "dangling task reference")
      | Some d =>
          Ok {| AnalysisResult.task_id := Task.task_id d;
                AnalysisResult.status := Task.status d;
                AnalysisResult.progress := Task.progress d;
                AnalysisResult.message := Task.message d;
                AnalysisResult.result := Task.result d;
                AnalysisResult.error := Task.error d |}
      end
  end.

(** What the event loop does next: serve a request, or resume the [i]-th
    background invocation. *)
Inductive request :=
| POST_analyze (file : UploadFile) (uuid4 now : string) (write_error : option py_exception)
| GET_status (task_id : string)
| Wake (i : nat) (r : resume).

Definition set_runner (i : nat) (rn : runner) (w : world) : world :=
  {| heap := heap w; analysis_tasks := analysis_tasks w; files := files w;
     gettempdir := gettempdir w; background := <[i := rn]> (background w) |}.

Definition serve (w : world) (q : request) : world :=
  match q with
  | POST_analyze file uuid4 now write_error =>
      fst (analyze_war_file w file uuid4 now write_error)
  | GET_status _ => w
  | Wake i r =>
      match background w !! i with
      | Some rn =>
          let '(w', rn') := perform_analysis w rn r in
          set_runner i rn' w'
      | None => w
      end
  end.

(** [uuid.uuid4()] does not repeat: the identifier a submission draws is not
    in the registry yet. *)
Definition unused (w : world) (q : request) : bool :=
  match q with
  | POST_analyze _ uuid4 _ _ => bool_decide (analysis_tasks w !! uuid4 = None)
  | _ => true
  end.

(** A run of the process, and whether every identifier drawn in it is new. *)
Fixpoint serve_all (w : world) (qs : list request) : world :=
  match qs with
  | [] => w
  | q :: qs' => serve_all (serve w q) qs'
  end.

Fixpoint distinct_ids (w : world) (qs : list request) : bool :=
  match qs with
  | [] => true
  | q :: qs' => unused w q && distinct_ids (serve w q) qs'
  end.

(** The process starts with an empty registry. *)
Definition boot (tmp : string) (fs : gmap string file_content) : world :=
  {| heap := []; analysis_tasks := ∅; files := fs; gettempdir := tmp; background := [] |}.

Definition reachable (w : world) : Prop :=
  exists tmp fs qs, distinct_ids (boot tmp fs) qs = true /\ w = serve_all (boot tmp fs) qs.

(** The progress and status a poller reads for [task_id]. *)
Definition polled (w : world) (task_id : string) : option AnalysisResult.t :=
  match get_analysis_status w task_id with
  | Ok body => Some body
  | _ => None
  end.

Definition terminal (s : Status) : bool :=
  match s with
  | completed | failed => true
  | pending | processing => false
  end.

(** ** Loading the module

    The top-level statements of [main.py], reduced to the names each one
    looks up when it is executed and the names it binds.  A name is searched
    in the class namespace (inside a class body), the module globals and the
    built-ins (given as the test [builtins] of a name); a miss raises
    [NameError].

    When annotations are evaluated depends on the interpreter.  CPython up
    to 3.13 evaluates the annotations of a [def] (parameters first, the
    return annotation last) when the [def] statement runs, and the
    annotation of an annotated assignment when the assignment runs, unless
    [from __future__ import annotations] is in force, which this module does
    not use.  CPython 3.14 and later defer them: they are evaluated only
    when something reads [__annotations__].  The decorators and the defaults
    of a [def] are evaluated when it runs in either case; its body is not
    run. *)
Module Loader.

Inductive annotations :=
| Eager      (* CPython up to 3.13 *)
| Deferred.  (* CPython 3.14 and later *)

Inductive stmt :=
| Import (binds : list string)
| Exec (loads : list string) (binds : list string)
| AnnAssign (annotation : list string) (loads : list string) (binds : list string)
| Def (name : string) (decorators defaults annotation : list string)
| Class (name : string) (bases : list string) (body : list stmt).

Record module := {
  future_annotations : bool;
  body : list stmt
}.

Inductive loaded :=
| Loaded (globals : list string)
| NameError (name : string) (globals : list string).

Definition mem (x : string) (names : list string) : bool :=
  existsb (String.eqb x) names.

Definition known (builtins : string -> bool) (outer locals : list string) (x : string)
  : bool :=
  mem x locals || mem x outer || builtins x.

(** The first of [xs] that no scope knows. *)
Definition missing (builtins : string -> bool) (outer locals xs : list string)
  : option string :=
  List.find (fun x => negb (known builtins outer locals x)) xs.

(** Whether the statements of [m] leave their annotations unevaluated. *)
Definition postpones (py : annotations) (m : module) : bool :=
  match py with
  | Eager => future_annotations m
  | Deferred => true
  end.

Section Exec.
Variable postponed : bool.
Variable builtins : string -> bool.

(** Run a statement in the namespace [locals], enclosed by [outer]:
    the new [locals], or the name that was not found. *)
Fixpoint exec (outer locals : list string) (s : stmt) : string + list string :=
  match s with
  | Import binds => inr (locals ++ binds)
  | Exec loads binds =>
      match missing builtins outer locals loads with
      | Some x => inl x
      | None => inr (locals ++ binds)
      end
  | AnnAssign annotation loads binds =>
      match missing builtins outer locals loads with
      | Some x => inl x
      | None =>
          let locals' := locals ++ binds in
          match missing builtins outer locals' (if postponed then [] else annotation) with
          | Some x => inl x
          | None => inr locals'
          end
      end
  | Def name decorators defaults annotation =>
      let loads := decorators ++ defaults ++ (if postponed then [] else annotation) in
      match missing builtins outer locals loads with
      | Some x => inl x
      | None => inr (locals ++ [name])
      end
  | Class name bases body =>
      match missing builtins outer locals bases with
      | Some x => inl x
      | None =>
          let fix block (ns : list string) (ss : list stmt) : string + list string :=
            match ss with
            | [] => inr ns
            | s' :: ss' =>
                match exec (outer ++ locals) ns s' with
                | inl x => inl x
                | inr ns' => block ns' ss'
                end
            end in
          match block ["__module__"; "__qualname__"] body with
          | inl x => inl x
          | inr _ => inr (locals ++ [name])
          end
      end
  end.

Fixpoint run (globals : list string) (ss : list stmt) : loaded :=
  match ss with
  | [] => Loaded globals
  | s :: ss' =>
      match exec [] globals s with
      | inl x => NameError x globals
      | inr globals' => run globals' ss'
      end
  end.
End Exec.

(** [import m] of a module [m] by the interpreter [py]: its globals start
    as the names the import machinery sets. *)
Definition load (py : annotations) (builtins : string -> bool) (m : module) : loaded :=
  run (postpones py m) builtins
      ["__name__"; "__doc__"; "__package__"; "__loader__"; "__spec__"; "__file__"]
      (body m).

(** The annotations that are handed to library code when the module is
    loaded: those of a decorated [def], which its decorators receive, and
    those of the body of a class with base classes, which the bases'
    metaclass receives. *)
Fixpoint handed_over (s : stmt) : list string :=
  match s with
  | Import _ | Exec _ _ | AnnAssign _ _ _ => []
  | Def _ decorators _ annotation =>
      match decorators with [] => [] | _ :: _ => annotation end
  | Class _ bases body =>
      match bases with
      | [] => flat_map handed_over body
      | _ :: _ =>
          flat_map (fun s' =>
            match s' with
            | AnnAssign annotation _ _ => annotation
            | _ => handed_over s'
            end) body
      end
  end.

End Loader.

Import Loader.

(** [src/api/main.py], statement by statement. *)
Definition main_py (typing_names : list string) : module :=
  {| future_annotations := false;
     body :=
       [ Exec [] [];
         Import ["FastAPI"; "File"; "UploadFile"; "HTTPException"; "BackgroundTasks"];
         Import ["CORSMiddleware"];
         Import ["JSONResponse"; "HTMLResponse"];
         Import ["BaseModel"];
         Import typing_names;
         Import ["uuid"]; Import ["os"]; Import ["tempfile"]; Import ["asyncio"];
         Import ["json"]; Import ["zipfile"]; Import ["re"];
         Import ["datetime"];
         Import ["logging"];
         Exec ["logging"; "logging"] [];
         Exec ["logging"; "__name__"] ["logger"];
         Exec ["FastAPI"] ["app"];
         Exec ["app"; "CORSMiddleware"] [];
         AnnAssign ["Dict"; "str"; "Dict"; "str"; "Any"] [] ["analysis_tasks"];
         Class "AnalysisResult" ["BaseModel"]
           [ Exec [] [];
             AnnAssign ["str"] [] [];
             AnnAssign ["str"] [] [];
             AnnAssign ["int"] [] [];
             AnnAssign ["str"] [] [];
             AnnAssign ["Optional"; "Dict"] [] ["result"];
             AnnAssign ["Optional"; "str"] [] ["error"] ];
         Class "SimplifiedWARAnalyzer" []
           [ Exec [] [];
             Def "__init__" [] [] [];
             Def "analyze_war_structure" [] [] ["str"; "Dict"];
             Def "analyze_spring_components" [] [] ["Dict"; "Dict"];
             Def "analyze_sql_patterns" [] [] ["Dict"; "List"; "Dict"];
             Def "generate_modernization_suggestions" [] []
               ["Dict"; "List"; "List"; "Dict"];
             Def "analyze_war" [] [] ["str"; "Dict"] ];
         Def "root" ["app"; "HTMLResponse"] [] [];
         Def "analyze_war_file" ["app"] ["File"] ["BackgroundTasks"; "UploadFile"];
         Def "perform_analysis" [] [] ["str"];
         Def "get_analysis_status" ["app"] [] ["str"];
         Def "health_check" ["app"] [] [];
         Def "api_info" ["app"] [] [];
         Exec ["app"] ["handler"] ] |}.

(** The line [from typing import Optional, Dict, Any] as it is written. *)
Definition typing_imports : list string := ["Optional"; "Dict"; "Any"].

(** The operations of the service: names that must be bound for a request
    to be served. *)
Definition operations : list string :=
  ["SimplifiedWARAnalyzer"; "analyze_war_file"; "perform_analysis"; "get_analysis_status"].


(** The names of the [builtins] module: functions and types, constants,
    and the exception classes the source mentions. *)
Definition python_builtins : list string :=
  [ "abs"; "aiter"; "all"; "anext"; "any"; "ascii"; "bin"; "bool"; "breakpoint";
    "bytearray"; "bytes"; "callable"; "chr"; "classmethod"; "compile"; "complex";
    "delattr"; "dict"; "dir"; "divmod"; "enumerate"; "eval"; "exec"; "filter";
    "float"; "format"; "frozenset"; "getattr"; "globals"; "hasattr"; "hash";
    "help"; "hex"; "id"; "input"; "int"; "isinstance"; "issubclass"; "iter";
    "len"; "list"; "locals"; "map"; "max"; "memoryview"; "min"; "next"; "object";
    "oct"; "open"; "ord"; "pow"; "print"; "property"; "range"; "repr"; "reversed";
    "round"; "set"; "setattr"; "slice"; "sorted"; "staticmethod"; "str"; "sum";
    "super"; "tuple"; "type"; "vars"; "zip"; "__import__";
    "None"; "True"; "False"; "Ellipsis"; "NotImplemented"; "__debug__";
    "BaseException"; "Exception"; "KeyError"; "NameError"; "OSError";
    "KeyboardInterrupt"; "SystemExit"; "MemoryError" ].

Definition is_builtin (x : string) : bool := mem x python_builtins.

(** ** The specification's wording

    Definitions that follow the sentences of the specification, to be
    compared with the functions above. *)

(** A component descriptor [{name, role, package, estimated=true}] named
    [<Role><index>]. *)
Definition descriptor (role pkg : string) (index : nat) : Component :=
  {| name := role +:+ Py.str_of_nat index; type := role; package := pkg; estimated := true |}.

(** All the descriptors of one role, indices from 1. *)
Definition role_block (role pkg : string) (count : nat) : list Component :=
  map (descriptor role pkg) (seq 1 count).

(** [estimate_components]: three floored integer divisions, then the roles
    in fixed order, cut to 10. *)
Definition estimate_components_spec (n : nat) : SpringComponents :=
  let c := Nat.max 1 (n / 20) in
  let s := Nat.max 1 (n / 15) in
  let r := Nat.max 1 (n / 25) in
  {| total_components := c + s + r;
     controllers := c;
     services := s;
     repositories := r;
     components :=
       firstn 10 (role_block "Controller" "com.nbs.web" c
                  ++ role_block "Service" "com.nbs.service" s
                  ++ role_block "Repository" "com.nbs.dao" r) |}.

Definition with_total_classes (n : nat) (facts : StructureInfo) : StructureInfo :=
  {| file_name := file_name facts; file_size_mb := file_size_mb facts;
     web_inf_found := web_inf_found facts; spring_detected := spring_detected facts;
     spring_version := spring_version facts; total_classes := n;
     total_jars := total_jars facts; jar_files := jar_files facts |}.

(** The finding at index [i], its file name carrying [extension]. *)
Definition finding_spec (extension : string) (i : nat) : SqlPattern :=
  {| file := "LegacyClass" +:+ Py.str_of_nat (i + 1) +:+ extension;
     pattern_type :=
       nth (i mod 3) ["executeSQL"; "createStatement().execute"; "prepareStatement"] "";
     sql_statement := "SELECT * FROM table_" +:+ Py.str_of_nat (i + 1) +:+ " WHERE id = ?";
     risk_level := nth (i mod 3) ["HIGH"; "CRITICAL"; "MEDIUM"] "";
     modernization_suggestion := "Replace with JPA Repository pattern" |}.

(** The extension of a compiled unit, the one [analyze_war_structure] counts
    for ['total_classes'], and the extension the synthesized file names
    carry. *)
Definition compiled_unit_extension : string := ".class".
Definition source_file_extension : string := ".java".

(** The facts of an archive without any entry. *)
Definition empty_archive_facts : StructureInfo :=
  {| file_name := "empty.war"; file_size_mb := size_mb 22; web_inf_found := false;
     spring_detected := false; spring_version := None;
     total_classes := 0; total_jars := 0; jar_files := [] |}.


Section Tokens.
(** What counts as a decimal digit. *)
Variable digit : string -> bool.





End Tokens.




(** The archive of the end-to-end scenario: 200 compiled units and the one
    library [spring-core-5.3.2.jar]. *)
Definition scenario_names : list string :=
  map (fun i => "WEB-INF/classes/com/nbs/Legacy" +:+ Py.str_of_nat i +:+ ".class") (seq 0 200)
  ++ ["spring-core-5.3.2.jar"].

Definition scenario_war : file_content :=
  {| content_length := 4096; zip_namelist := Return scenario_names |}.




(** The archive name with its trailing extension stripped: the name up to
    the place where what remains is the extension, and the whole name if it
    does not end with the extension. *)
Fixpoint strip_extension (extension name : string) : string :=
  if String.eqb name extension then EmptyString
  else match name with
       | EmptyString => EmptyString
       | String c name' => String c (strip_extension extension name')
       end.

(** What a call returned, if it returned. *)
Definition returned {A : Type} (m : outcome A) : option A :=
  match m with
  | Return a => Some a
  | Raise _ => None
  end.

(** An upload named [app.warehouse.war], stored for the task [7c2d]. *)
Definition warehouse_fs : gmap string file_content :=
  {[ "/tmp/7c2d_app.warehouse.war" :=
       {| content_length := 2048;
          zip_namelist := Return ["WEB-INF/web.xml"; "WEB-INF/classes/Stock.class"] |} ]}.

(** The limit on the size of an upload, in bytes. *)
Definition MiB_100 : N := 100 * 1024 * 1024.

(** The same resumption, with [os.remove] failing or not. *)
Definition with_remove_fails (b : bool) (r : resume) : resume :=
  {| awaited := awaited r; analysis_clock := analysis_clock r;
     end_clock := end_clock r; remove_fails := b |}.

(** Resumptions of the examples: nothing is raised by the [await];
    [quiet] removes the file, [stuck] cannot. *)
Definition quiet : resume :=
  {| awaited := None; analysis_clock := "2025-01-01T00:00:07";
     end_clock := "2025-01-01T00:00:08"; remove_fails := false |}.

Definition stuck : resume := with_remove_fails true quiet.

Definition raising (e : py_exception) : resume :=
  {| awaited := Some e; analysis_clock := "2025-01-01T00:00:07";
     end_clock := "2025-01-01T00:00:08"; remove_fails := false |}.

(** Uploads of the examples: a readable archive, and one on which
    [zipfile] raises [e]. *)
Definition shop_war : UploadFile :=
  {| filename := "shop.war"; content := scenario_war |}.

Definition unreadable_war (e : py_exception) : UploadFile :=
  {| filename := "broken.war";
     content := {| content_length := 12; zip_namelist := Raise e |} |}.

(** A process that has taken one submission under the identifier [7c2d] and
    run its task up to the second [await]. *)
Definition two_stages_in : world :=
  serve_all (boot "/tmp" ∅)
    [ POST_analyze shop_war "7c2d" "2025-01-01T00:00:00" None;
      Wake 0 quiet; Wake 0 quiet ].

(** The same task under the same identifier, submitted again later. *)
Definition resubmitted : world * http Started :=
  analyze_war_file two_stages_in shop_war "7c2d" "2025-01-01T00:01:00" None.

(** A task whose archive makes the analysis raise [e], run to its end. *)
Definition run_unreadable (e : py_exception) : world :=
  serve_all (boot "/tmp" ∅)
    [ POST_analyze (unreadable_war e) "41aa" "2025-01-01T00:00:00" None;
      Wake 0 quiet; Wake 0 quiet; Wake 0 quiet; Wake 0 quiet; Wake 0 quiet ].

(** ** Invariants of the registry *)

(** The progress written before each [await]. *)
Definition checkpoint (at_ : sleep) : nat :=
  match at_ with
  | Sleep1 => 20
  | Sleep2 => 40
  | Sleep3 => 60
  | Sleep4 => 80
  end.

Definition at_checkpoint (p : nat) : Prop := exists at_, p = checkpoint at_.

(** What a task dict looks like in each status. *)
Definition task_ok (d : Task.t) : Prop :=
  match Task.status d with
  | pending =>
      Task.progress d = 0 /\ Task.result d = None /\ Task.error d = None
      /\ Task.end_time d = None
  | processing =>
      at_checkpoint (Task.progress d) /\ Task.result d = None /\ Task.error d = None
      /\ Task.end_time d = None
  | completed =>
      Task.progress d = 100 /\ is_Some (Task.result d) /\ Task.error d = None
      /\ is_Some (Task.end_time d)
  | failed =>
      at_checkpoint (Task.progress d) /\ Task.result d = None /\ is_Some (Task.error d)
      /\ is_Some (Task.end_time d)
  end.

(** The dict a background invocation writes to when it is resumed. *)
Definition target (w : world) (rn : runner) : option nat :=
  match rn with
  | Scheduled task_id => analysis_tasks w !! task_id
  | Sleeping task _ => Some task
  | Returned | Propagated _ => None
  end.

(** A background invocation agrees with the dict it holds. *)
Definition runner_ok (w : world) (rn : runner) : Prop :=
  match rn with
  | Scheduled task_id =>
      exists task d, analysis_tasks w !! task_id = Some task /\ heap w !! task = Some d
                     /\ Task.status d = pending
  | Sleeping task at_ =>
      exists d, heap w !! task = Some d /\ Task.status d = processing
                /\ Task.progress d = checkpoint at_
  | Returned | Propagated _ => True
  end.

Record consistent (w : world) : Prop := {
  bound_tasks : forall task_id task,
    analysis_tasks w !! task_id = Some task ->
    exists d, heap w !! task = Some d /\ Task.task_id d = task_id;
  tasks_ok : forall task d, heap w !! task = Some d -> task_ok d;
  runners_ok : forall i rn, background w !! i = Some rn -> runner_ok w rn;
  one_writer : forall i j rn rn' task,
    i <> j -> background w !! i = Some rn -> background w !! j = Some rn' ->
    target w rn = Some task -> target w rn' <> Some task
}.

(** The state the runner expects of its dict. *)
Definition expects (rn : runner) (d : Task.t) : Prop :=
  match rn with
  | Scheduled _ => Task.status d = pending /\ Task.progress d = 0
  | Sleeping _ at_ => Task.status d = processing /\ Task.progress d = checkpoint at_
  | Returned | Propagated _ => True
  end.

(** What one resumption does to the dict the runner holds. *)
Inductive moved (r : resume) (d : Task.t) : runner -> Task.t -> Prop :=
| moved_on at_ d' :
    Task.status d' = processing -> Task.progress d' = checkpoint at_ ->
    Task.progress d <= Task.progress d' ->
    Task.result d' = Task.result d -> Task.error d' = Task.error d ->
    Task.end_time d' = Task.end_time d ->
    moved r d (Sleeping 0 at_) d'
| moved_completed d' :
    Task.status d = processing ->
    Task.status d' = completed -> Task.progress d' = 100 ->
    Task.progress d = checkpoint Sleep4 ->
    is_Some (Task.result d') -> Task.error d' = Task.error d ->
    Task.end_time d' = Some (end_clock r) ->
    moved r d Returned d'
| moved_failed d' str_e :
    Task.status d = processing ->
    Task.status d' = failed -> Task.progress d' = Task.progress d ->
    Task.result d' = Task.result d -> Task.error d' = Some str_e ->
    Task.end_time d' = Some (end_clock r) ->
    moved r d Returned d'
| moved_out e :
    is_Exception e = false ->
    moved r d (Propagated e) d.

(** The runner state, whatever dict reference it carries. *)
Definition forget (rn : runner) : runner :=
  match rn with
  | Sleeping _ at_ => Sleeping 0 at_
  | _ => rn
  end.

Record stepped (w : world) (task : nat) (d : Task.t) (r : resume)
    (w' : world) (rn' : runner) : Prop := {
  stepped_dict : exists d',
    heap w' !! task = Some d' /\ moved r d (forget rn') d'
    /\ Task.task_id d' = Task.task_id d /\ Task.file_path d' = Task.file_path d;
  stepped_others : forall j, j <> task -> heap w' !! j = heap w !! j;
  stepped_registry : analysis_tasks w' = analysis_tasks w;
  stepped_background : background w' = background w;
  stepped_tempdir : gettempdir w' = gettempdir w;
  stepped_target : forall w'', target w'' rn' = Some task \/ target w'' rn' = None
}.

(** What the specification says of [result] and [error], on a status and
    the two optional values. *)
Definition presence {R E : Type} (s : Status) (result : option R) (error : option E) : Prop :=
  (is_Some result <-> s = completed)
  /\ (is_Some error <-> s = failed)
  /\ ~ (is_Some result /\ is_Some error)
  /\ (terminal s = true -> is_Some result \/ is_Some error)
  /\ (terminal s = false -> result = None /\ error = None).

(** The status the runner expects of its dict. *)
Definition expects_status (rn : runner) (d : Task.t) : Prop :=
  match rn with
  | Scheduled _ => Task.status d = pending
  | Sleeping _ at_ => Task.status d = processing /\ Task.progress d = checkpoint at_
  | Returned | Propagated _ => True
  end.

(** The projection of a task dict by the status endpoint. *)
Definition projection (d : Task.t) : AnalysisResult.t :=
  {| AnalysisResult.task_id := Task.task_id d;
     AnalysisResult.status := Task.status d;
     AnalysisResult.progress := Task.progress d;
     AnalysisResult.message := Task.message d;
     AnalysisResult.result := Task.result d;
     AnalysisResult.error := Task.error d |}.

(** The runner has left [perform_analysis], by returning or by an
    exception. *)
Definition ended (rn : runner) : Prop :=
  rn = Returned \/ exists e, rn = Propagated e.

(** The task of [run_unreadable], one resumption before its end. *)
Definition before_analysis (e : py_exception) : world :=
  serve_all (boot "/tmp" ∅)
    [ POST_analyze (unreadable_war e) "41aa" "2025-01-01T00:00:00" None;
      Wake 0 quiet; Wake 0 quiet; Wake 0 quiet; Wake 0 quiet ].

(** ** Notions used by the further properties *)

(** The progress values the runner writes, each with the message written
    along with it; the first pair is that of a new task. *)
Definition stages : list (nat * string) :=
  [ (0, "準備開始分析...");
    (20, "解析WAR檔案結構...");
    (40, "檢測Spring框架配置...");
    (60, "分析Spring組件架構...");
    (80, "識別SQL執行模式...");
    (100, "分析完成！") ].

(** The message of a dict is the one of its progress. *)
Definition in_step (d : Task.t) : Prop := In (Task.progress d, Task.message d) stages.

(** The keys of a task dict that the runner never assigns. *)
Definition same_identity (d d' : Task.t) : Prop :=
  Task.task_id d' = Task.task_id d /\ Task.start_time d' = Task.start_time d
  /\ Task.file_path d' = Task.file_path d /\ Task.file_name d' = Task.file_name d.

(** The functions a resumption applies to a dict. *)
Definition gentle (f : Task.t -> Task.t) : Prop :=
  forall d, same_identity d (f d) /\ (in_step d -> in_step (f d)).

(** What a stage sets after the [await] at [at_] returns: progress, message
    and the next [await]; nothing after the last one, where the analysis
    runs. *)
Definition stage_after (at_ : sleep) : option (nat * string * sleep) :=
  match at_ with
  | Sleep1 => Some (40, "檢測Spring框架配置...", Sleep2)
  | Sleep2 => Some (60, "分析Spring組件架構...", Sleep3)
  | Sleep3 => Some (80, "識別SQL執行模式...", Sleep4)
  | Sleep4 => None
  end.

(** The number of resumptions a runner still takes at most. *)
Definition remaining (rn : runner) : nat :=
  match rn with
  | Scheduled _ => 5
  | Sleeping _ Sleep1 => 4
  | Sleeping _ Sleep2 => 3
  | Sleeping _ Sleep3 => 2
  | Sleeping _ Sleep4 => 1
  | Returned | Propagated _ => 0
  end.

(** How often the [i]-th background invocation is resumed in a run. *)
Fixpoint wakes (i : nat) (qs : list request) : nat :=
  match qs with
  | [] => 0
  | Wake j _ :: qs' => (if Nat.eqb i j then 1 else 0) + wakes i qs'
  | _ :: qs' => wakes i qs'
  end.

(** The path under which [analyze_war_file] stores an upload. *)
Definition stored_at (w : world) (uuid4 : string) (file : UploadFile) : string :=
  Py.path_join (gettempdir w) (uuid4 +:+ "_" +:+ filename file).

(** The task of [two_stages_in], two resumptions further: at its last
    [await]. *)
Definition four_stages_in : world := serve_all two_stages_in [Wake 0 quiet; Wake 0 quiet].

(** A submission followed by the five resumptions of its runner, nothing
    else in between. *)
Definition submit_and_run (w : world) (file : UploadFile) (uuid4 now : string)
    (r1 r2 r3 r4 r5 : resume) : world :=
  let i := length (background w) in
  serve_all w
    [ POST_analyze file uuid4 now None;
      Wake i r1; Wake i r2; Wake i r3; Wake i r4; Wake i r5 ].

(** A process that has taken one submission and not yet run its task, and a
    run that resumes this task five times among other requests. *)
Definition just_submitted : world :=
  serve_all (boot "/tmp" ∅) [ POST_analyze shop_war "7c2d" "2025-01-01T00:00:00" None ].

Definition busy_run : list request :=
  [ Wake 0 quiet; GET_status "7c2d"; Wake 0 quiet; Wake 0 quiet;
    POST_analyze (unreadable_war (Exception "File is not a zip file")) "41aa"
      "2025-01-01T00:00:02" None;
    Wake 1 quiet; Wake 0 quiet; Wake 0 stuck ].

(** Every dict is bound under its own identifier, and there are as many
    identifiers and background invocations as dicts. *)
Definition accounted (w : world) : Prop :=
  (forall task d, heap w !! task = Some d ->
     analysis_tasks w !! Task.task_id d = Some task)
  /\ size (analysis_tasks w) = length (heap w)
  /\ length (background w) = length (heap w).


(** * Properties *)

(** ** The estimators *)

Lemma for_range_append {A} (f : nat -> A) n init :
  Py.for_range n (fun i acc => acc ++ [f i]) init = init ++ map f (seq 0 n).
Proof.
  unfold Py.for_range. generalize 0. revert init.
  induction n as [|n IH]; intros init k; simpl.
  - by rewrite app_nil_r.
  - rewrite IH. by rewrite <- app_assoc.
Qed.

Lemma map_succ_seq {A} (f : nat -> A) n :
  map (fun i => f (i + 1)) (seq 0 n) = map f (seq 1 n).
Proof.
  rewrite <- seq_shift, map_map. apply map_ext. intros i. by rewrite Nat.add_1_r.
Qed.

Lemma analyze_spring_components_unfold facts :
  analyze_spring_components facts = estimate_components_spec (total_classes facts).
Proof.
  unfold analyze_spring_components, estimate_components_spec, role_block, descriptor.
  rewrite !for_range_append, app_nil_l.
  rewrite (map_succ_seq (fun k => {| name := "Controller" +:+ Py.str_of_nat k;
     type := "Controller"; package := "com.nbs.web"; estimated := true |})).
  rewrite (map_succ_seq (fun k => {| name := "Service" +:+ Py.str_of_nat k;
     type := "Service"; package := "com.nbs.service"; estimated := true |})).
  rewrite (map_succ_seq (fun k => {| name := "Repository" +:+ Py.str_of_nat k;
     type := "Repository"; package := "com.nbs.dao"; estimated := true |})).
  rewrite <- app_assoc. f_equal.
  rewrite !length_app, !length_map, !length_seq. lia.
Qed.

Lemma role_block_Forall (P : Component -> Prop) role pkg n :
  (forall i, P (descriptor role pkg i)) -> Forall P (role_block role pkg n).
Proof. intros H. unfold role_block. apply Forall_map, Forall_forall. intros; apply H. Qed.

(** C6.  For every [structure_info] with [n] compiled units,
    [analyze_spring_components] returns the counts [max(1, n // 20)],
    [max(1, n // 15)], [max(1, n // 25)] (1/1/1 when [n = 0]) and, as its
    descriptor list, the first 10 entries of all controllers, then all
    services, then all repositories; every descriptor is marked estimated and
    is named by its role followed by an index. *)
Theorem estimate_components_counts_and_descriptors (facts : StructureInfo) :
  let n := total_classes facts in
  let r := analyze_spring_components facts in
  controllers r = Nat.max 1 (n / 20)
  /\ services r = Nat.max 1 (n / 15)
  /\ repositories r = Nat.max 1 (n / 25)
  /\ components r =
       firstn 10 (role_block "Controller" "com.nbs.web" (controllers r)
                  ++ role_block "Service" "com.nbs.service" (services r)
                  ++ role_block "Repository" "com.nbs.dao" (repositories r))
  /\ Forall (fun c => estimated c = true /\
                      exists index, name c = type c +:+ Py.str_of_nat index)
            (components r)
  /\ (let r0 := analyze_spring_components (with_total_classes 0 facts) in
      controllers r0 = 1 /\ services r0 = 1 /\ repositories r0 = 1).
Proof.
  intros n r. subst r n. rewrite !analyze_spring_components_unfold.
  repeat split.
  apply Forall_take. rewrite !Forall_app.
  repeat split; apply role_block_Forall; intros i; (split; [done | by exists i]).
Qed.

Lemma analyze_sql_patterns_unfold facts :
  analyze_sql_patterns facts =
  map (finding_spec source_file_extension)
      (seq 0 (Nat.min 10 (Nat.max 1 (total_classes facts / 10)))).
Proof.
  unfold analyze_sql_patterns. rewrite for_range_append, app_nil_l. reflexivity.
Qed.

(** C7 as it is stated does not hold: the synthesized file name does not
    carry the compiled-unit extension.  With no compiled unit the one
    finding is in [LegacyClass1.java]. *)
Lemma estimate_patterns_extension_counterexample :
  file <$> analyze_sql_patterns empty_archive_facts !! 0 = Some "LegacyClass1.java"
  /\ analyze_sql_patterns empty_archive_facts <>
     map (finding_spec compiled_unit_extension)
         (seq 0 (Nat.min 10 (Nat.max 1 (total_classes empty_archive_facts / 10)))).
Proof. split; [reflexivity | discriminate]. Qed.

(** C7, amended.  For every [structure_info] with [n] compiled units,
    [analyze_sql_patterns] returns exactly [min(10, max(1, n // 10))]
    findings (one when [n = 0]); the finding at index [i] has the pattern
    kind and the risk level at position [i mod 3] of their rotations, the
    source file name [LegacyClass<i+1>.java] and a statement on table
    [table_<i+1>]. *)
Theorem estimate_patterns_findings (facts : StructureInfo) :
  let count := Nat.min 10 (Nat.max 1 (total_classes facts / 10)) in
  length (analyze_sql_patterns facts) = count
  /\ (forall i, i < count ->
        analyze_sql_patterns facts !! i =
        Some {| file := "LegacyClass" +:+ Py.str_of_nat (i + 1) +:+ ".java";
                pattern_type :=
                  nth (i mod 3)
                      ["executeSQL"; "createStatement().execute"; "prepareStatement"] "";
                sql_statement :=
                  "SELECT * FROM table_" +:+ Py.str_of_nat (i + 1) +:+ " WHERE id = ?";
                risk_level := nth (i mod 3) ["HIGH"; "CRITICAL"; "MEDIUM"] "";
                modernization_suggestion := "Replace with JPA Repository pattern" |})
  /\ length (analyze_sql_patterns (with_total_classes 0 facts)) = 1.
Proof.
  intros count. subst count. rewrite !analyze_sql_patterns_unfold.
  split; [by rewrite length_map, length_seq|]. split; [|reflexivity].
  intros i Hi. rewrite list_lookup_fmap, lookup_seq_lt by done. reflexivity.
Qed.

(** ** Strings *)

Example endswith_war : Py.endswith "shop.war" ".war" = true /\ Py.endswith "shop.war.bak" ".war" = false.
Proof. split; reflexivity. Qed.

Example lower_mixed : Py.lower "WEB-INF/lib/Spring-Core.JAR" = "web-inf/lib/spring-core.jar".
Proof. reflexivity. Qed.

Example replace_all : Py.replace ".war" "" "a.war.war" = "a" /\ Py.replace ".war" "" "..warwar" = ".war".
Proof. split; reflexivity. Qed.

Example basename_temp : Py.basename "/tmp/7c2d_shop.war" = "7c2d_shop.war".
Proof. reflexivity. Qed.

Example path_join_temp :
  Py.path_join "/tmp" "7c2d_shop.war" = "/tmp/7c2d_shop.war"
  /\ Py.path_join "/var/tmp/" "7c2d_shop.war" = "/var/tmp/7c2d_shop.war".
Proof. split; reflexivity. Qed.

Lemma string_app_assoc (a b c : string) : (a +:+ b) +:+ c = a +:+ b +:+ c.
Proof. induction a as [|x a IH]; simpl; [done | by rewrite IH]. Qed.

Lemma string_app_nil_r (a : string) : a +:+ "" = a.
Proof. induction a as [|x a IH]; simpl; [done | by rewrite IH]. Qed.

Lemma string_app_length (a b : string) :
  String.length (a +:+ b) = String.length a + String.length b.
Proof. induction a as [|x a IH]; simpl; [done | by rewrite IH]. Qed.

Lemma string_app_inv_length (a b a' b' : string) :
  a +:+ b = a' +:+ b' -> String.length a = String.length a' -> a = a' /\ b = b'.
Proof.
  revert a'. induction a as [|x a IH]; intros [|x' a']; simpl; try done.
  intros [= -> H] [= Hl]. destruct (IH _ H Hl) as [-> ->]. done.
Qed.

Lemma startswith_spec (s p : string) :
  Py.startswith s p = true <-> exists q, s = p +:+ q.
Proof.
  revert s. induction p as [|x p IH]; intros s; simpl.
  - split; [intros _; by exists s | done].
  - destruct s as [|y s]; [split; [done | intros [q [=]]]|].
    destruct (Ascii.eqb_spec x y) as [->|Hne]; simpl.
    + rewrite IH. split; intros [q Hq]; exists q; [by rewrite Hq | by injection Hq].
    + split; [done | intros [q [= ? _]]; done].
Qed.

Lemma endswith_spec (s suf : string) :
  Py.endswith s suf = true <-> exists p, s = p +:+ suf.
Proof.
  induction s as [|x s IH].
  - change (Py.endswith "" suf) with (if String.eqb "" suf then true else false).
    destruct (String.eqb_spec "" suf) as [<-|Hne].
    + split; [intros _; exists ""; reflexivity | done].
    + split; [done|]. intros [[|y p] Hp]; simpl in Hp; [done | discriminate].
  - change (Py.endswith (String x s) suf)
      with (if String.eqb (String x s) suf then true else Py.endswith s suf).
    destruct (String.eqb_spec (String x s) suf) as [<-|Hne].
    + split; [intros _; exists ""; reflexivity | done].
    + rewrite IH. split.
      * intros [p ->]. exists (String x p). reflexivity.
      * intros [[|y p] Hp]; simpl in Hp; [done|].
        injection Hp as -> ->. by exists p.
Qed.

Lemma contains_spec (sub s : string) :
  Py.contains sub s = true <-> exists p q, s = p +:+ sub +:+ q.
Proof.
  induction s as [|x s IH]; simpl.
  - destruct (Py.startswith "" sub) eqn:Hp.
    + apply startswith_spec in Hp as [q Hq]. split; [intros _; exists "", q; exact Hq | done].
    + split; [done|]. intros [[|y p] [q Hq]]; simpl in Hq; [|discriminate].
      assert (Py.startswith "" sub = true) by (apply startswith_spec; eauto). congruence.
  - destruct (Py.startswith (String x s) sub) eqn:Hp.
    + apply startswith_spec in Hp as [q Hq]. split; [intros _; exists "", q; exact Hq | done].
    + rewrite IH. split.
      * intros (p & q & ->). exists (String x p), q. reflexivity.
      * intros ([|y p] & q & Hq); simpl in Hq.
        -- assert (Py.startswith (String x s) sub = true) by (apply startswith_spec; eauto).
           congruence.
        -- injection Hq as -> ->. eauto.
Qed.





(** ** The version search *)

Example search_version_examples :
  Re.search version_pattern "spring-core-5.3.2.jar" = Some "5.3.2"
  /\ Re.search version_pattern "lib1.2-spring-12.345.6.7.jar" = Some "12.345.6"
  /\ Re.search version_pattern "spring-web-5.3.jar" = None
  /\ Re.search version_pattern "spring-core-٥.٣.٢.jar" = Some "٥.٣.٢".
Proof. repeat split; vm_compute; reflexivity. Qed.








Section Token_search.
Variable d : string -> bool.
Hypothesis d_dot : d "." = false.





End Token_search.


(** *** Names whose digits are [0] to [9] *)







(** *** Characters and text *)





(** ** Library entries *)


(** ** The inspector *)


Lemma analyze_war_structure_returns fs path content names :
  fs !! path = Some content ->
  zip_namelist content = Return names ->
  let spring_jars :=
    List.filter (fun f => Py.contains "spring" (Py.lower f) && Py.endswith f ".jar") names in
  analyze_war_structure fs path =
  Return {| file_name := Py.basename path;
            file_size_mb := size_mb (content_length content);
            web_inf_found := existsb (fun f => Py.contains "WEB-INF" f) names;
            spring_detected := negb (bool_decide (spring_jars = []));
            spring_version := first_version spring_jars;
            total_classes := length (List.filter (fun f => Py.endswith f ".class") names);
            total_jars := length (List.filter (fun f => Py.endswith f ".jar") names);
            jar_files := firstn 5 spring_jars |}.
Proof.
  intros Hfs Hzip. unfold analyze_war_structure, getsize, namelist.
  rewrite Hfs, Hzip. simpl.
  by destruct (List.filter _ names).
Qed.




(** ** The project name *)

Lemma strip_extension_suffix extension stem :
  strip_extension extension (stem +:+ extension) = stem.
Proof.
  induction stem as [|c stem IH].
  - simpl. destruct extension as [|x e]; simpl; [done|].
    by rewrite Ascii.eqb_refl, String.eqb_refl.
  - change (strip_extension extension (String c stem +:+ extension))
      with (if String.eqb (String c (stem +:+ extension)) extension then EmptyString
            else String c (strip_extension extension (stem +:+ extension))).
    destruct (String.eqb_spec (String c (stem +:+ extension)) extension) as [E|_].
    + apply (f_equal String.length) in E. simpl in E.
      rewrite string_app_length in E. lia.
    + by rewrite IH.
Qed.

(** Where the extension occurs only at the end of the name, the
    replacement of the source does strip it. *)
Lemma replace_strips_single_extension stem :
  (forall p q, stem +:+ ".war" = p +:+ ".war" +:+ q -> q = "") ->
  Py.replace ".war" "" (stem +:+ ".war") = strip_extension ".war" (stem +:+ ".war").
Proof.
  rewrite strip_extension_suffix. unfold Py.replace.
  induction stem as [|c stem IH]; intros Honly; [reflexivity|].
  change (Py.replace_from ".war" "" 0 (String c stem +:+ ".war"))
    with (if Py.startswith (String c (stem +:+ ".war")) ".war"
          then "" +:+ Py.replace_from ".war" "" (String.length ".war" - 1) (stem +:+ ".war")
          else String c (Py.replace_from ".war" "" 0 (stem +:+ ".war"))).
  destruct (Py.startswith (String c (stem +:+ ".war")) ".war") eqn:Hs.
  - apply startswith_spec in Hs as [q Hq].
    pose proof (Honly "" q Hq) as ->.
    apply (f_equal String.length) in Hq. simpl in Hq.
    rewrite string_app_length in Hq. simpl in Hq. lia.
  - f_equal. apply IH. intros p q Hpq. apply (Honly (String c p) q).
    simpl. by rewrite Hpq.
Qed.

(** C10: the code departs from the claim.  For the archive stored as
    [7c2d_app.warehouse.war] the project name is [7c2d_appehouse]: the
    interior [.war] of the name is removed along with the trailing one,
    where stripping the extension gives [7c2d_app.warehouse]. *)
Theorem project_name_loses_interior_extension :
  let result := analyze_war warehouse_fs "2025-01-01T00:00:00" "/tmp/7c2d_app.warehouse.war" in
  (file_name ∘ war_info) <$> returned result = Some "7c2d_app.warehouse.war"
  /\ project_name <$> returned result = Some "7c2d_appehouse"
  /\ strip_extension ".war" "7c2d_app.warehouse.war" = "7c2d_app.warehouse"
  /\ project_name <$> returned result
     <> strip_extension ".war" <$> ((file_name ∘ war_info) <$> returned result).
Proof. vm_compute. repeat split; discriminate. Qed.

(** ** Submission *)

Lemma size_check (n : N) : (100 * 1024 * 1024 <? n)%N = true <-> (MiB_100 < n)%N.
Proof. apply N.ltb_lt. Qed.

Lemma analyze_war_file_rejected w file uuid4 now write_error :
  Py.endswith (filename file) ".war" = false
  \/ (MiB_100 < content_length (content file))%N ->
  exists detail,
    analyze_war_file w file uuid4 now write_error = (w, HTTPException 400 detail).
Proof.
  unfold analyze_war_file. intros [H|H].
  - rewrite H. simpl. eauto.
  - destruct (Py.endswith _ _); simpl; [|eauto].
    apply size_check in H. rewrite H. eauto.
Qed.

Lemma analyze_war_file_passed w file uuid4 now write_error :
  Py.endswith (filename file) ".war" = true ->
  (content_length (content file) <= MiB_100)%N ->
  analyze_war_file w file uuid4 now write_error =
  match write_error with
  | Some e => (w, Unhandled e)
  | None =>
      let file_path := Py.path_join (gettempdir w) (uuid4 +:+ "_" +:+ filename file) in
      ({| heap := heap w ++
            [ {| Task.task_id := uuid4; Task.status := pending; Task.progress := 0;
                 Task.message := "準備開始分析..."; Task.start_time := now;
                 Task.file_path := file_path; Task.file_name := filename file;
                 Task.end_time := None; Task.result := None; Task.error := None |} ];
          analysis_tasks := <[uuid4 := length (heap w)]> (analysis_tasks w);
          files := <[file_path := content file]> (files w);
          gettempdir := gettempdir w;
          background := background w ++ [Scheduled uuid4] |},
       Ok {| started_task_id := uuid4; started_message := "分析任務已啟動" |})
  end.
Proof.
  unfold analyze_war_file. intros -> H. simpl.
  assert ((100 * 1024 * 1024 <? content_length (content file))%N = false) as ->.
  { apply N.ltb_ge. exact H. }
  reflexivity.
Qed.

(** C5.  A submission is answered with HTTP 400 exactly when the file name
    does not end with [.war] or the content is longer than 100 MiB; then
    nothing changes, the registry included.  A content of exactly
    [100 * 1024 * 1024] bytes passes (the task is registered once the
    temporary file is written), one byte more is refused. *)
Theorem submission_validation
    (w : world) (file : UploadFile) (uuid4 now : string)
    (write_error : option py_exception) :
  let size := content_length (content file) in
  let answer := analyze_war_file w file uuid4 now write_error in
  ((exists detail, answer.2 = HTTPException 400 detail)
     <-> (~ (exists stem, filename file = stem +:+ ".war")) \/ (100 * 1024 * 1024 < size)%N)
  /\ ((~ (exists stem, filename file = stem +:+ ".war")) \/ (100 * 1024 * 1024 < size)%N ->
      answer.1 = w /\ analysis_tasks answer.1 = analysis_tasks w)
  /\ ((exists stem, filename file = stem +:+ ".war") ->
      (size = 100 * 1024 * 1024)%N ->
      (forall code detail, answer.2 <> HTTPException code detail)
      /\ (write_error = None ->
          answer.2 = Ok {| started_task_id := uuid4; started_message := "分析任務已啟動" |}
          /\ analysis_tasks answer.1 !! uuid4 = Some (length (heap w))))
  /\ ((size = 100 * 1024 * 1024 + 1)%N ->
      exists detail, answer.2 = HTTPException 400 detail).
Proof.
  intros size answer. subst size answer.
  destruct (Py.endswith (filename file) ".war") eqn:Hext.
  - pose proof (proj1 (endswith_spec _ _) Hext) as Hstem.
    destruct (N.lt_ge_cases MiB_100 (content_length (content file))) as [Hbig|Hfit].
    + destruct (analyze_war_file_rejected w file uuid4 now write_error) as [detail ->];
        [by right|]. simpl.
      split; [split; [intros _; by right | by eexists]|].
      split; [done|]. split; [|by eexists].
      intros _ Heq. unfold MiB_100 in Hbig. lia.
    + rewrite analyze_war_file_passed by done.
      split; [|split; [|split]].
      * split.
        -- intros [detail H]. destruct write_error; discriminate H.
        -- intros [H|H]; [done | unfold MiB_100 in Hfit; lia].
      * intros [H|H]; [done | unfold MiB_100 in Hfit; lia].
      * intros _ _. split; [intros ??; by destruct write_error|].
        intros ->. simpl. split; [done | by rewrite lookup_insert_eq].
      * intros H. unfold MiB_100 in Hfit. lia.
  - assert (Hno : ~ (exists stem, filename file = stem +:+ ".war")).
    { intros H%endswith_spec. congruence. }
    destruct (analyze_war_file_rejected w file uuid4 now write_error) as [detail ->];
      [by left|]. simpl.
    split; [split; [intros _; by left | by eexists]|].
    split; [done|]. split; [done | by eexists].
Qed.

(** ** The runner *)

Lemma cleanup_keeps task r w :
  heap (cleanup task r w) = heap w
  /\ analysis_tasks (cleanup task r w) = analysis_tasks w
  /\ background (cleanup task r w) = background w
  /\ gettempdir (cleanup task r w) = gettempdir w.
Proof.
  unfold cleanup. destruct (heap w !! task) as [d|]; [|done].
  destruct (files w !! Task.file_path d); [|done]. by destruct (remove_fails r).
Qed.

Lemma cleanup_files task r w d :
  heap w !! task = Some d ->
  files (cleanup task r w) =
  if remove_fails r then files w else delete (Task.file_path d) (files w).
Proof.
  unfold cleanup. intros ->.
  destruct (files w !! Task.file_path d) eqn:Hf.
  - by destruct (remove_fails r).
  - destruct (remove_fails r); [done|]. by rewrite delete_id.
Qed.

Ltac lookups :=
  repeat first
    [ rewrite list_lookup_alter_eq
    | rewrite list_lookup_alter_ne by done
    | progress simpl ].

Lemma stage_stepped w task d r p m next :
  heap w !! task = Some d ->
  Task.status d = processing -> p = checkpoint next -> Task.progress d <= p ->
  forall w' rn', stage task p m next w = (w', rn') -> stepped w task d r w' rn'.
Proof.
  intros Hd Hst -> Hle w' rn' [= <- <-]. split; simpl; try done.
  - eexists. lookups. rewrite Hd. simpl. split; [done|]. split; [|done].
    by constructor.
  - intros j Hj. by lookups.
  - by left.
Qed.

Lemma on_raise_stepped w task d r e :
  heap w !! task = Some d -> Task.status d = processing ->
  forall w' rn', on_raise task r e w = (w', rn') -> stepped w task d r w' rn'.
Proof.
  intros Hd Hst w' rn'. destruct e as [str_e|str_e]; simpl; intros [= <- <-].
  - destruct (cleanup_keeps task r
                (write task (Task.set_end_time (end_clock r))
                   (write task (Task.set_error str_e)
                      (write task (Task.set_status failed) w))))
      as (Hh & Hr & Hb & Ht).
    split; rewrite ?Hh, ?Hr, ?Hb, ?Ht; simpl; try done.
    + eexists. lookups. rewrite Hd. simpl. split; [done|]. split; [|done].
      by eapply moved_failed.
    + intros j Hj. by lookups.
    + by right.
  - destruct (cleanup_keeps task r w) as (Hh & Hr & Hb & Ht).
    split; rewrite ?Hh, ?Hr, ?Hb, ?Ht; simpl; try done.
    + exists d. split; [done|]. split; [|done]. by constructor.
    + by right.
Qed.

Lemma finish_stepped w task d r :
  heap w !! task = Some d -> Task.status d = processing ->
  Task.progress d = checkpoint Sleep4 ->
  forall w' rn', finish task r w = (w', rn') -> stepped w task d r w' rn'.
Proof.
  intros Hd Hst Hp w' rn'. unfold finish. rewrite Hd.
  destruct (analyze_war _ _ _) as [result|e]; [|by apply on_raise_stepped].
  intros [= <- <-].
  match goal with |- stepped _ _ _ _ (cleanup _ _ ?w1) _ =>
    destruct (cleanup_keeps task r w1) as (Hh & Hr & Hb & Ht) end.
  split; rewrite ?Hh, ?Hr, ?Hb, ?Ht; simpl; try done.
  - eexists. lookups. rewrite Hd. simpl. split; [done|]. split; [|done].
    by constructor.
  - intros j Hj. by lookups.
  - by right.
Qed.

Lemma perform_analysis_stepped w rn r task d w' rn' :
  target w rn = Some task -> heap w !! task = Some d -> expects rn d ->
  perform_analysis w rn r = (w', rn') ->
  stepped w task d r w' rn'.
Proof.
  destruct rn as [task_id|task0 at_| |e]; simpl; try done.
  - intros -> Hd [Hst Hp] [= <- <-]. split; simpl; try done.
    + eexists. lookups. rewrite Hd. simpl. split; [done|]. split; [|done].
      constructor; simpl; try done. lia.
    + intros j Hj. by lookups.
    + by left.
  - intros [= ->] Hd [Hst Hp].
    destruct (awaited r) as [e|]; [by apply on_raise_stepped|].
    destruct at_; simpl in Hp.
    + apply stage_stepped; try done. rewrite Hp. lia.
    + apply stage_stepped; try done. rewrite Hp. lia.
    + apply stage_stepped; try done. rewrite Hp. lia.
    + by apply finish_stepped.
Qed.

Lemma write_files task f w : files (write task f w) = files w.
Proof. done. Qed.

Lemma on_raise_files w task d r e :
  heap w !! task = Some d ->
  files (on_raise task r e w).1 =
  if remove_fails r then files w else delete (Task.file_path d) (files w).
Proof.
  intros Hd. destruct e as [str_e|str_e]; simpl.
  - erewrite cleanup_files; [|simpl; lookups; by rewrite Hd]. done.
  - by erewrite cleanup_files.
Qed.

Lemma finish_files w task d r :
  heap w !! task = Some d ->
  files (finish task r w).1 =
  if remove_fails r then files w else delete (Task.file_path d) (files w).
Proof.
  intros Hd. unfold finish. rewrite Hd.
  destruct (analyze_war _ _ _) as [result|e]; [|by apply on_raise_files].
  simpl. erewrite cleanup_files; [|simpl; lookups; by rewrite Hd]. done.
Qed.

(** A resumption either reaches the next [await], the files untouched, or
    leaves the function, the temporary file removed unless [os.remove]
    failed. *)
Lemma perform_analysis_files w task d at_ r :
  heap w !! task = Some d ->
  let after := perform_analysis w (Sleeping task at_) r in
  (exists next, after.2 = Sleeping task next /\ files after.1 = files w)
  \/ (ended after.2
      /\ files after.1 =
         if remove_fails r then files w else delete (Task.file_path d) (files w)).
Proof.
  intros Hd. simpl. destruct (awaited r) as [e|].
  - right. split; [|by apply on_raise_files].
    destruct e; simpl; [by left | right; by eexists].
  - destruct at_; simpl; try (left; by eexists).
    right. split; [|by apply finish_files].
    unfold finish. rewrite Hd. destruct (analyze_war _ _ _) as [result|e]; [by left|].
    destruct e; simpl; [by left | right; by eexists].
Qed.

Lemma cleanup_remove_fails task r b w :
  heap (cleanup task (with_remove_fails b r) w) = heap (cleanup task r w).
Proof.
  destruct (cleanup_keeps task r w) as (-> & _).
  by destruct (cleanup_keeps task (with_remove_fails b r) w) as (-> & _).
Qed.

Lemma perform_analysis_remove_fails w rn r b :
  heap (perform_analysis w rn (with_remove_fails b r)).1 = heap (perform_analysis w rn r).1
  /\ (perform_analysis w rn (with_remove_fails b r)).2 = (perform_analysis w rn r).2.
Proof.
  destruct rn as [id|task k| |e]; simpl; try done.
  destruct (awaited r) as [e|].
  - destruct e; simpl; by rewrite cleanup_remove_fails.
  - destruct k; simpl; try done. unfold finish.
    destruct (heap w !! task) as [d|]; [|done]. simpl.
    destruct (analyze_war _ _ _) as [result|e]; simpl.
    + by rewrite cleanup_remove_fails.
    + destruct e; simpl; by rewrite cleanup_remove_fails.
Qed.

(** ** The registry stays consistent *)

Lemma consistent_boot tmp fs : consistent (boot tmp fs).
Proof. split; simpl; intros *; try done. Qed.

Lemma moved_task_ok r d rn' d' :
  task_ok d -> moved r d rn' d' ->
  (Task.status d = pending \/ Task.status d = processing) -> task_ok d'.
Proof.
  unfold task_ok. intros Hok Hm Hst.
  destruct Hm as [at_ d' Hs Hp _ Hr He Ht | d' Hsd Hs Hp _ Hr He Ht
                 | d' str_e Hsd Hs Hp Hr He Ht | e _].
  - rewrite Hs, Hp, Hr, He, Ht. split; [by exists at_|].
    destruct Hst as [E|E]; rewrite E in Hok; tauto.
  - rewrite Hs, Hp, He, Ht. rewrite Hsd in Hok. split; [done|]. split; [done|].
    split; [tauto | by eexists].
  - rewrite Hs, Hp, Hr, He, Ht. rewrite Hsd in Hok. split; [tauto|]. split; [tauto|].
    split; by eexists.
  - done.
Qed.

Lemma target_registry w w' rn :
  analysis_tasks w' = analysis_tasks w -> target w' rn = target w rn.
Proof. intros H. destruct rn; simpl; by rewrite ?H. Qed.

Lemma runner_ok_target w rn :
  runner_ok w rn ->
  match target w rn with
  | Some task => exists d, heap w !! task = Some d /\ expects_status rn d
  | None => rn = Returned \/ exists e, rn = Propagated e
  end.
Proof.
  destruct rn as [task_id|task at_| |e]; simpl.
  - intros (task & d & -> & Hd & Hst). eauto.
  - intros (d & Hd & Hst & Hp). eauto.
  - by left.
  - right. by exists e.
Qed.

Lemma runner_ok_frame w w' rn :
  runner_ok w rn ->
  analysis_tasks w' = analysis_tasks w ->
  (forall task, target w rn = Some task -> heap w' !! task = heap w !! task) ->
  runner_ok w' rn.
Proof.
  destruct rn as [task_id|task at_| |e]; simpl; try done.
  - intros (task & d & Hreg & Hd & Hst) -> Hsame.
    exists task, d. by rewrite (Hsame task Hreg).
  - intros (d & Hd & Hst) _ Hsame. exists d. by rewrite (Hsame task eq_refl).
Qed.

Lemma consistent_wake w i r : consistent w -> consistent (serve w (Wake i r)).
Proof.
  intros Hc. simpl. destruct (background w !! i) as [rn|] eqn:Hi; [|done].
  destruct (perform_analysis w rn r) as [w' rn'] eqn:Hstep.
  pose proof (runner_ok_target w rn (runners_ok w Hc i rn Hi)) as Ht.
  destruct (target w rn) as [task|] eqn:Htarget.
  - destruct Ht as (d & Hd & Hexp).
    pose proof (tasks_ok w Hc task d Hd) as Hok.
    assert (Hexp' : expects rn d).
    { destruct rn; simpl in *; try done. unfold task_ok in Hok.
      rewrite Hexp in Hok. tauto. }
    assert (Hstat : Task.status d = pending \/ Task.status d = processing).
    { destruct rn; simpl in *; try done; tauto. }
    destruct (perform_analysis_stepped w rn r task d w' rn' Htarget Hd Hexp' Hstep)
      as [(d' & Hd' & Hmoved & Hid & Hpath) Hothers Hreg Hbg Htmp Htgt].
    pose proof (moved_task_ok r d _ d' Hok Hmoved Hstat) as Hok'.
    assert (Hlen : i < length (background w)) by (by eapply lookup_lt_Some).
    assert (Hreg2 : analysis_tasks (set_runner i rn' w') = analysis_tasks w) by done.
    split.
    1-3: simpl.
    + intros id t Hidt. rewrite Hreg in Hidt.
      destruct (bound_tasks w Hc id t Hidt) as (d0 & Hd0 & Hid0).
      destruct (decide (t = task)) as [->|Hne].
      * exists d'. split; [done|]. rewrite Hid. congruence.
      * exists d0. by rewrite Hothers.
    + intros t d0 Ht0. destruct (decide (t = task)) as [->|Hne].
      * congruence.
      * rewrite Hothers in Ht0 by done. by eapply tasks_ok.
    + intros j rnj Hj. rewrite Hbg in Hj.
      destruct (decide (j = i)) as [->|Hne].
      * rewrite list_lookup_insert_eq in Hj by done. injection Hj as <-.
        destruct rn' as [id|t k| |e]; simpl; try done.
        -- inversion Hmoved.
        -- destruct (Htgt w) as [[= ->]|[=]]. exists d'. split; [done|].
           simpl in Hmoved. by inversion Hmoved.
      * rewrite list_lookup_insert_ne in Hj by done.
        apply (runner_ok_frame w); [by eapply runners_ok | done |].
        intros t Ht0. apply Hothers. intros ->.
        by apply (one_writer w Hc i j rn rnj task).
    + intros i1 j1 rn1 rn2 t Hne H1 H2. simpl in H1, H2. rewrite Hbg in H1, H2.
      rewrite !(target_registry w _ _ Hreg2).
      destruct (decide (i1 = i)) as [->|Hi1]; destruct (decide (j1 = i)) as [->|Hj1];
        try done.
      * rewrite list_lookup_insert_eq in H1 by done. injection H1 as <-.
        rewrite list_lookup_insert_ne in H2 by done.
        intros Ht1. destruct (Htgt w) as [E|E]; rewrite E in Ht1; [|done].
        injection Ht1 as <-. by apply (one_writer w Hc i j1 rn rn2 task).
      * rewrite list_lookup_insert_ne in H1 by done.
        rewrite list_lookup_insert_eq in H2 by done. injection H2 as <-.
        intros Ht1. destruct (Htgt w) as [E|E]; rewrite E; [|done].
        intros [= ->]. by apply (one_writer w Hc i1 i rn1 rn t).
      * rewrite list_lookup_insert_ne in H1 by done.
        rewrite list_lookup_insert_ne in H2 by done.
        by apply (one_writer w Hc i1 j1).
  - assert (w' = w /\ rn' = rn) as [-> ->].
    { destruct Ht as [->|[e ->]]; simpl in Hstep; by injection Hstep. }
    destruct Hc as [H1 H2 H3 H4].
    split; simpl; rewrite ?list_insert_id by done; try done.
Qed.

Lemma consistent_submit w file uuid4 now write_error :
  consistent w -> analysis_tasks w !! uuid4 = None ->
  consistent (analyze_war_file w file uuid4 now write_error).1.
Proof.
  intros Hc Hnew. unfold analyze_war_file.
  destruct (negb _); [done|]. destruct (_ <? _)%N; [done|].
  destruct write_error as [e|]; [done|]. simpl.
  assert (Hold : forall rn, runner_ok w rn -> forall task, target w rn = Some task ->
                   task < length (heap w) /\ rn <> Scheduled uuid4).
  { intros rn Hrn task Ht. pose proof (runner_ok_target w rn Hrn) as H.
    rewrite Ht in H. destruct H as (d & Hd & _).
    split; [by eapply lookup_lt_Some|]. intros ->. simpl in Ht. congruence. }
  assert (Hother : forall rn, runner_ok w rn -> rn <> Scheduled uuid4).
  { intros rn Hrn ->. destruct Hrn as (task & d & Ht & _). congruence. }
  split; simpl.
  - intros id t. destruct (decide (uuid4 = id)) as [->|Hne].
    + rewrite lookup_insert_eq. intros [= <-].
      eexists. by rewrite list_lookup_middle.
    + rewrite lookup_insert_ne by done. intros Ht.
      destruct (bound_tasks w Hc id t Ht) as (d & Hd & Hid).
      exists d. split; [by apply lookup_app_l_Some | done].
  - intros t d [Hd|[_ Hd]]%lookup_app_Some; [by eapply tasks_ok|].
    destruct (t - length (heap w)) as [|n]; [|done]. injection Hd as <-.
    by unfold task_ok.
  - intros i rn [Hi|[_ Hi]]%lookup_app_Some.
    + pose proof (runners_ok w Hc i rn Hi) as Hrn.
      destruct rn as [id|t k| |e]; simpl in *; try done.
      * destruct Hrn as (t & d & Ht & Hd & Hst). exists t, d.
        rewrite lookup_insert_ne by congruence.
        split; [done|]. split; [by apply lookup_app_l_Some | done].
      * destruct Hrn as (d & Hd & Hst). exists d.
        split; [by apply lookup_app_l_Some | done].
    + destruct (i - length (background w)) as [|n]; [|done]. injection Hi as <-.
      simpl. eexists _, _. rewrite lookup_insert_eq, list_lookup_middle by done.
      done.
  - set (w1 := {| heap := _; analysis_tasks := _; files := _; gettempdir := _;
                  background := _ |}).
    assert (Htgt : forall rn, runner_ok w rn -> target w1 rn = target w rn).
    { intros rn Hrn. destruct rn as [id|t k| |e]; simpl; try done.
      rewrite lookup_insert_ne; [done|]. intros ->. by apply (Hother _ Hrn). }
    assert (Hnewt : target w1 (Scheduled uuid4) = Some (length (heap w))).
    { simpl. by rewrite lookup_insert_eq. }
    intros i j rn rn' t Hne [Hi|[Hil Hi]]%lookup_app_Some [Hj|[Hjl Hj]]%lookup_app_Some.
    + pose proof (runners_ok w Hc i rn Hi). pose proof (runners_ok w Hc j rn' Hj).
      rewrite !Htgt by done. by apply (one_writer w Hc i j).
    + pose proof (runners_ok w Hc i rn Hi) as Hrn.
      destruct (j - length (background w)) as [|n]; [|done]. injection Hj as <-.
      rewrite Htgt, Hnewt by done. intros Ht [= <-].
      destruct (Hold rn Hrn _ Ht). lia.
    + pose proof (runners_ok w Hc j rn' Hj) as Hrn.
      destruct (i - length (background w)) as [|n]; [|done]. injection Hi as <-.
      rewrite (Htgt rn') , Hnewt by done. intros [= <-] Ht.
      destruct (Hold rn' Hrn _ Ht). lia.
    + destruct (i - length (background w)) as [|n] eqn:Ei; [|done].
      destruct (j - length (background w)) as [|m] eqn:Ej; [|done]. lia.
Qed.

Lemma consistent_serve w q :
  consistent w -> unused w q = true -> consistent (serve w q).
Proof.
  intros Hc Hq. destruct q as [file uuid4 now write_error|task_id|i r].
  - apply consistent_submit; [done|]. simpl in Hq. by apply bool_decide_eq_true in Hq.
  - done.
  - by apply consistent_wake.
Qed.

Lemma consistent_serve_all qs : forall w,
  consistent w -> distinct_ids w qs = true -> consistent (serve_all w qs).
Proof.
  induction qs as [|q qs IH]; intros w Hc Hqs; simpl in *; [done|].
  apply andb_prop in Hqs as [Hq Hqs]. apply IH; [by apply consistent_serve | done].
Qed.

Lemma reachable_consistent w : reachable w -> consistent w.
Proof.
  intros (tmp & fs & qs & Hqs & ->).
  apply consistent_serve_all; [apply consistent_boot | done].
Qed.

(** ** The life of a task *)

Lemma task_ok_presence d :
  task_ok d -> presence (Task.status d) (Task.result d) (Task.error d).
Proof.
  unfold task_ok, presence.
  destruct (Task.status d); intros (Hp & Hr & He & Ht); simpl;
    rewrite ?Hr, ?He; repeat split; try done; try tauto;
    try (by intros [? [=]]); try (by intros [[? [=]] _]); try (by intros [_ [? [=]]]).
Qed.

Lemma polled_inv w task_id body :
  polled w task_id = Some body <->
  exists task d, analysis_tasks w !! task_id = Some task /\ heap w !! task = Some d
                 /\ body = projection d.
Proof.
  unfold polled, get_analysis_status, projection.
  destruct (analysis_tasks w !! task_id) as [task|] eqn:Ht;
    [destruct (heap w !! task) as [d|] eqn:Hd|]; simpl.
  - split; [intros [= <-]; by exists task, d|].
    intros (? & ? & [= <-] & Hd' & ->). rewrite Hd in Hd'. by injection Hd' as <-.
  - split; [done|]. intros (? & ? & [= <-] & Hd' & _). congruence.
  - split; [done | intros (? & ? & [=] & _)].
Qed.

(** C2.  In every state reached through submissions and resumptions of the
    runners (identifiers drawn by [uuid4] being new), every task dict and
    every answer of the status endpoint carries [result] exactly when the
    status is [completed] and [error] exactly when it is [failed], never
    both, one of them in a terminal status, and none of them (null in the
    answer) before. *)
Theorem result_error_presence (w : world) :
  reachable w ->
  (forall task d, heap w !! task = Some d ->
     presence (Task.status d) (Task.result d) (Task.error d))
  /\ (forall task_id body, get_analysis_status w task_id = Ok body ->
        presence (AnalysisResult.status body) (AnalysisResult.result body)
                 (AnalysisResult.error body)).
Proof.
  intros Hc%reachable_consistent. split.
  - intros task d Hd. apply task_ok_presence. by eapply tasks_ok.
  - intros task_id body Hb.
    assert (Hp : polled w task_id = Some body) by (unfold polled; by rewrite Hb).
    apply polled_inv in Hp as (task & d & _ & Hd & ->). simpl.
    apply task_ok_presence. by eapply tasks_ok.
Qed.

(** Reachability of the example states. *)
Lemma two_stages_in_reachable : reachable two_stages_in.
Proof. eexists "/tmp", ∅, _. split; [|reflexivity]. vm_compute. reflexivity. Qed.

Lemma run_unreadable_reachable e : reachable (run_unreadable e).
Proof. eexists "/tmp", ∅, _. split; [|reflexivity]. vm_compute. reflexivity. Qed.

Lemma result_error_presence_two_stages_in :
  (forall task d, heap two_stages_in !! task = Some d ->
     presence (Task.status d) (Task.result d) (Task.error d))
  /\ (forall task_id body, get_analysis_status two_stages_in task_id = Ok body ->
        presence (AnalysisResult.status body) (AnalysisResult.result body)
                 (AnalysisResult.error body)).
Proof. exact (result_error_presence two_stages_in two_stages_in_reachable). Defined.

(** One step of the process, seen from one task dict: it stays as it is, or
    its own runner moves it on. *)
Lemma serve_dict w q task d :
  consistent w -> heap w !! task = Some d ->
  exists d', heap (serve w q) !! task = Some d' /\
    (d' = d \/
     exists r rn', (Task.status d = pending \/ Task.status d = processing)
                   /\ moved r d rn' d').
Proof.
  intros Hc Hd. destruct q as [file uuid4 now write_error|task_id|i r]; simpl.
  - exists d. split; [|by left]. unfold analyze_war_file.
    destruct (negb _); [done|]. destruct (_ <? _)%N; [done|].
    destruct write_error; [done|]. simpl. by apply lookup_app_l_Some.
  - exists d. split; [done | by left].
  - destruct (background w !! i) as [rn|] eqn:Hi; [|by exists d; split; [|left]].
    destruct (perform_analysis w rn r) as [w' rn'] eqn:Hstep. simpl.
    pose proof (runner_ok_target w rn (runners_ok w Hc i rn Hi)) as Ht.
    destruct (target w rn) as [task0|] eqn:Htarget.
    + destruct Ht as (d0 & Hd0 & Hexp).
      pose proof (tasks_ok w Hc task0 d0 Hd0) as Hok.
      assert (Hexp' : expects rn d0).
      { destruct rn; simpl in *; try done. unfold task_ok in Hok.
        rewrite Hexp in Hok. tauto. }
      assert (Hstat : Task.status d0 = pending \/ Task.status d0 = processing).
      { destruct rn; simpl in *; try done; tauto. }
      destruct (perform_analysis_stepped w rn r task0 d0 w' rn' Htarget Hd0 Hexp' Hstep)
        as [(d' & Hd' & Hmoved & _) Hothers _ _ _ _].
      destruct (decide (task = task0)) as [->|Hne].
      * exists d'. split; [done|]. right. exists r, (forget rn').
        assert (d0 = d) as -> by congruence. done.
      * exists d. split; [by rewrite Hothers | by left].
    + assert (w' = w) as ->.
      { destruct Ht as [->|[e ->]]; simpl in Hstep; by injection Hstep. }
      exists d. split; [done | by left].
Qed.

Lemma on_raise_registry task r e w :
  analysis_tasks (on_raise task r e w).1 = analysis_tasks w.
Proof.
  destruct e; simpl;
    match goal with |- analysis_tasks (cleanup _ _ ?w1) = _ =>
      destruct (cleanup_keeps task r w1) as (_ & -> & _) end; done.
Qed.

Lemma perform_analysis_registry w rn r :
  analysis_tasks (perform_analysis w rn r).1 = analysis_tasks w.
Proof.
  destruct rn as [id|task k| |e]; simpl; try done.
  - by destruct (analysis_tasks w !! id).
  - destruct (awaited r) as [e|]; [apply on_raise_registry|].
    destruct k; try done. unfold finish.
    destruct (heap w !! task) as [d|]; [|done].
    destruct (analyze_war _ _ _); [|apply on_raise_registry]. simpl.
    match goal with |- analysis_tasks (cleanup _ _ ?w1) = _ =>
      destruct (cleanup_keeps task r w1) as (_ & -> & _) end. done.
Qed.

Lemma serve_registry w q task_id task :
  unused w q = true -> analysis_tasks w !! task_id = Some task ->
  analysis_tasks (serve w q) !! task_id = Some task.
Proof.
  intros Hq Ht. destruct q as [file uuid4 now write_error|?|i r]; simpl; [|done|].
  - simpl in Hq. apply bool_decide_eq_true in Hq. unfold analyze_war_file.
    destruct (negb _); [done|]. destruct (_ <? _)%N; [done|].
    destruct write_error; [done|]. simpl. rewrite lookup_insert_ne; [done | congruence].
  - destruct (background w !! i) as [rn|] eqn:Hi; [|done].
    pose proof (perform_analysis_registry w rn r) as Hreg.
    destruct (perform_analysis w rn r) as [w' rn']. simpl in *. by rewrite Hreg.
Qed.

Lemma moved_progress r d rn' d' :
  moved r d rn' d' -> Task.progress d <= Task.progress d'.
Proof.
  intros [at_ d1 _ _ H _ _ _ | d1 _ _ Hp H4 _ _ _ | d1 str_e _ _ Hp _ _ _ | e _];
    simpl in *; lia.
Qed.

(** One step of the process, seen by a poller of [task_id]. *)
Lemma polled_serve w q task_id before :
  consistent w -> unused w q = true -> polled w task_id = Some before ->
  exists after,
    polled (serve w q) task_id = Some after
    /\ AnalysisResult.progress before <= AnalysisResult.progress after
    /\ (terminal (AnalysisResult.status before) = true -> after = before)
    /\ (AnalysisResult.status after = failed ->
        AnalysisResult.status before <> failed ->
        AnalysisResult.status before = processing
        /\ AnalysisResult.progress after = AnalysisResult.progress before).
Proof.
  intros Hc Hq (task & d & Ht & Hd & ->)%polled_inv.
  destruct (serve_dict w q task d Hc Hd) as (d' & Hd' & Hrel).
  exists (projection d'). split.
  { apply polled_inv. exists task, d'. by rewrite (serve_registry w q task_id task). }
  simpl. destruct Hrel as [->|(r & rn' & Hst & Hm)]; [by repeat split|].
  split; [by eapply moved_progress|]. split.
  - intros Hterm. destruct Hst as [E|E]; rewrite E in Hterm; discriminate.
  - intros Hf Hnf.
    destruct Hm as [at_ d1 Hs | d1 _ Hs | d1 str_e Hsd Hs Hp | e _]; try congruence.
    done.
Qed.

Lemma polled_serve_all qs : forall w task_id before,
  consistent w -> distinct_ids w qs = true -> polled w task_id = Some before ->
  exists after,
    polled (serve_all w qs) task_id = Some after
    /\ AnalysisResult.progress before <= AnalysisResult.progress after
    /\ (terminal (AnalysisResult.status before) = true -> after = before).
Proof.
  induction qs as [|q qs IH]; intros w task_id before Hc Hqs Hb; simpl in *.
  - exists before. by repeat split.
  - apply andb_prop in Hqs as [Hq Hqs].
    destruct (polled_serve w q task_id before Hc Hq Hb) as (mid & Hmid & Hle & Hterm & _).
    destruct (IH (serve w q) task_id mid (consistent_serve w q Hc Hq) Hqs Hmid)
      as (after & Hafter & Hle' & Hterm').
    exists after. split; [done|]. split; [lia|].
    intros Ht. specialize (Hterm Ht). subst mid. by apply Hterm'.
Qed.

Lemma polled_task_ok w task_id body :
  consistent w -> polled w task_id = Some body ->
  exists d, body = projection d /\ task_ok d.
Proof.
  intros Hc (task & d & _ & Hd & ->)%polled_inv. exists d. split; [done|].
  by eapply tasks_ok.
Qed.

(** C3.  From any reachable state (identifiers drawn by [uuid4] being
    new): a submission creates its task with progress 0; over any run the
    progress a poller reads for a task does not decrease, is 100 once the
    status is [completed], and a terminal answer never changes again; and in
    the step that makes a task [failed] the progress keeps the value of the
    checkpoint reached before. *)
Theorem progress_never_decreases (w : world) :
  reachable w ->
  (forall file uuid4 now write_error w' started,
     analyze_war_file w file uuid4 now write_error = (w', Ok started) ->
     exists body, polled w' (started_task_id started) = Some body
                  /\ AnalysisResult.status body = pending
                  /\ AnalysisResult.progress body = 0)
  /\ (forall qs task_id before,
        distinct_ids w qs = true -> polled w task_id = Some before ->
        exists after,
          polled (serve_all w qs) task_id = Some after
          /\ AnalysisResult.progress before <= AnalysisResult.progress after
          /\ (AnalysisResult.status after = completed ->
              AnalysisResult.progress after = 100)
          /\ (terminal (AnalysisResult.status before) = true -> after = before))
  /\ (forall q task_id before after,
        unused w q = true ->
        polled w task_id = Some before -> polled (serve w q) task_id = Some after ->
        AnalysisResult.status after = failed ->
        AnalysisResult.status before <> failed ->
        AnalysisResult.status before = processing
        /\ at_checkpoint (AnalysisResult.progress before)
        /\ AnalysisResult.progress after = AnalysisResult.progress before).
Proof.
  intros Hc%reachable_consistent. split; [|split].
  - intros file uuid4 now write_error w' started. unfold analyze_war_file.
    destruct (negb _); [done|]. destruct (_ <? _)%N; [done|].
    destruct write_error; [done|]. intros [= <- <-]. simpl.
    eexists. split.
    + apply polled_inv. eexists _, _. simpl.
      rewrite lookup_insert_eq, list_lookup_middle by done. done.
    + done.
  - intros qs task_id before Hqs Hb.
    destruct (polled_serve_all qs w task_id before Hc Hqs Hb) as (after & Ha & Hle & Hterm).
    exists after. repeat split; try done.
    destruct (polled_task_ok _ task_id after (consistent_serve_all qs w Hc Hqs) Ha)
      as (d & -> & Hok).
    simpl. unfold task_ok in Hok. intros E. rewrite E in Hok. tauto.
  - intros q task_id before after Hq Hb Ha Hf Hnf.
    destruct (polled_serve w q task_id before Hc Hq Hb) as (after' & Ha' & _ & _ & Hfr).
    rewrite Ha in Ha'. injection Ha' as <-.
    destruct (Hfr Hf Hnf) as [Hp Heq]. repeat split; try done.
    destruct (polled_task_ok w task_id before Hc Hb) as (d & -> & Hok).
    simpl in *. unfold task_ok in Hok. rewrite Hp in Hok. tauto.
Qed.

Lemma progress_never_decreases_two_stages_in :
  (forall file uuid4 now write_error w' started,
     analyze_war_file two_stages_in file uuid4 now write_error = (w', Ok started) ->
     exists body, polled w' (started_task_id started) = Some body
                  /\ AnalysisResult.status body = pending
                  /\ AnalysisResult.progress body = 0)
  /\ (forall qs task_id before,
        distinct_ids two_stages_in qs = true -> polled two_stages_in task_id = Some before ->
        exists after,
          polled (serve_all two_stages_in qs) task_id = Some after
          /\ AnalysisResult.progress before <= AnalysisResult.progress after
          /\ (AnalysisResult.status after = completed ->
              AnalysisResult.progress after = 100)
          /\ (terminal (AnalysisResult.status before) = true -> after = before))
  /\ (forall q task_id before after,
        unused two_stages_in q = true ->
        polled two_stages_in task_id = Some before ->
        polled (serve two_stages_in q) task_id = Some after ->
        AnalysisResult.status after = failed ->
        AnalysisResult.status before <> failed ->
        AnalysisResult.status before = processing
        /\ at_checkpoint (AnalysisResult.progress before)
        /\ AnalysisResult.progress after = AnalysisResult.progress before).
Proof. exact (progress_never_decreases two_stages_in two_stages_in_reachable). Defined.

(** ** Failures and cleanup *)

(** C4 as it is stated does not hold.  An [Exception] whose description is
    empty ([MemoryError()], say) leaves the task [failed] with the empty
    string as its error; an exception that is not an [Exception] is not
    caught: it leaves the runner and the task stays [processing]. *)
Lemma failure_description_counterexample :
  (Task.status <$> heap (run_unreadable (Exception "")) !! 0 = Some failed
   /\ Task.error <$> heap (run_unreadable (Exception "")) !! 0 = Some (Some "")
   /\ ~ (exists str_e, Task.error <$> heap (run_unreadable (Exception "")) !! 0
                       = Some (Some str_e) /\ str_e <> ""))
  /\ (Task.status <$> heap (run_unreadable (BaseException "")) !! 0 = Some processing
      /\ background (run_unreadable (BaseException "")) = [Propagated (BaseException "")]).
Proof.
  split; [split; [|split]|split]; try (vm_compute; reflexivity).
  intros (str_e & H & Hne). vm_compute in H. by injection H as <-.
Qed.

(** C4, amended.  When a resumption of the runner meets a failure that is
    an instance of [Exception], raised by the [await] or by the analysis, the
    runner returns normally and leaves the task [failed], with the failure's
    description [str(e)] (empty if the description is) as its error, the
    completion time set and the progress unchanged.  Whenever the runner
    leaves [perform_analysis], the temporary file is gone if [os.remove] did
    not fail and the files are as they were if it did; and whether
    [os.remove] fails changes neither the task dict nor the way the runner
    ends. *)
Theorem runner_failure_and_cleanup
    (w : world) (task : nat) (d : Task.t) (at_ : sleep) (r : resume) :
  heap w !! task = Some d ->
  let after := perform_analysis w (Sleeping task at_) r in
  (forall str_e,
     awaited r = Some (Exception str_e)
     \/ (awaited r = None /\ at_ = Sleep4
         /\ analyze_war (files w) (analysis_clock r) (Task.file_path d)
            = Raise (Exception str_e)) ->
     after.2 = Returned
     /\ exists d', heap after.1 !! task = Some d'
                   /\ Task.status d' = failed
                   /\ Task.error d' = Some str_e
                   /\ Task.end_time d' = Some (end_clock r)
                   /\ Task.progress d' = Task.progress d
                   /\ Task.result d' = Task.result d)
  /\ (ended after.2 -> remove_fails r = false ->
      files after.1 !! Task.file_path d = None)
  /\ (ended after.2 -> remove_fails r = true -> files after.1 = files w)
  /\ (forall b,
        heap (perform_analysis w (Sleeping task at_) (with_remove_fails b r)).1
          = heap after.1
        /\ (perform_analysis w (Sleeping task at_) (with_remove_fails b r)).2 = after.2).
Proof.
  intros Hd after. subst after. split; [|split; [|split]].
  - assert (Hraise : forall str_e,
      (on_raise task r (Exception str_e) w).2 = Returned
      /\ exists d', heap (on_raise task r (Exception str_e) w).1 !! task = Some d'
                    /\ Task.status d' = failed /\ Task.error d' = Some str_e
                    /\ Task.end_time d' = Some (end_clock r)
                    /\ Task.progress d' = Task.progress d
                    /\ Task.result d' = Task.result d).
    { intros str_e. simpl. split; [done|].
      match goal with |- context [cleanup _ _ ?w1] =>
        destruct (cleanup_keeps task r w1) as (-> & _) end.
      eexists. simpl. lookups. rewrite Hd. simpl. done. }
    intros str_e [Ha|(Ha & -> & Han)]; simpl; rewrite Ha.
    + apply Hraise.
    + unfold finish. rewrite Hd, Han. apply Hraise.
  - intros Hend Hrm.
    destruct (perform_analysis_files w task d at_ r Hd) as [(next & Hn & _)|[_ Hf]].
    + rewrite Hn in Hend. destruct Hend as [[=]|[e [=]]].
    + rewrite Hf, Hrm. apply lookup_delete_eq.
  - intros Hend Hrm.
    destruct (perform_analysis_files w task d at_ r Hd) as [(next & Hn & _)|[_ Hf]].
    + rewrite Hn in Hend. destruct Hend as [[=]|[e [=]]].
    + by rewrite Hf, Hrm.
  - intros b. apply perform_analysis_remove_fails.
Qed.

Lemma runner_failure_and_cleanup_unreadable :
  exists d,
    heap (before_analysis (Exception "File is not a zip file")) !! 0 = Some d
    /\ let w := before_analysis (Exception "File is not a zip file") in
       let after := perform_analysis w (Sleeping 0 Sleep4) quiet in
       (forall str_e,
          awaited quiet = Some (Exception str_e)
          \/ (awaited quiet = None /\ Sleep4 = Sleep4
              /\ analyze_war (files w) (analysis_clock quiet) (Task.file_path d)
                 = Raise (Exception str_e)) ->
          after.2 = Returned
          /\ exists d', heap after.1 !! 0 = Some d'
                        /\ Task.status d' = failed
                        /\ Task.error d' = Some str_e
                        /\ Task.end_time d' = Some (end_clock quiet)
                        /\ Task.progress d' = Task.progress d
                        /\ Task.result d' = Task.result d)
       /\ (ended after.2 -> remove_fails quiet = false ->
           files after.1 !! Task.file_path d = None)
       /\ (ended after.2 -> remove_fails quiet = true -> files after.1 = files w)
       /\ (forall b,
             heap (perform_analysis w (Sleeping 0 Sleep4) (with_remove_fails b quiet)).1
               = heap after.1
             /\ (perform_analysis w (Sleeping 0 Sleep4) (with_remove_fails b quiet)).2
                = after.2).
Proof.
  eexists. split; [vm_compute; reflexivity|].
  apply (runner_failure_and_cleanup
           (before_analysis (Exception "File is not a zip file")) 0).
  vm_compute. reflexivity.
Defined.

(** ** Identifiers *)

(** C9 as it is stated does not hold: a submission that draws an identifier
    already in the registry is accepted, and the identifier is bound to the
    new task. *)
Lemma duplicate_identifier_counterexample :
  is_Some (analysis_tasks two_stages_in !! "7c2d")
  /\ resubmitted.2 = Ok {| started_task_id := "7c2d"; started_message := "分析任務已啟動" |}
  /\ analysis_tasks resubmitted.1 !! "7c2d" <> analysis_tasks two_stages_in !! "7c2d"
  /\ AnalysisResult.status <$> polled two_stages_in "7c2d" = Some processing
  /\ AnalysisResult.status <$> polled resubmitted.1 "7c2d" = Some pending.
Proof.
  split; [|split; [|split; [|split]]]; try (vm_compute; reflexivity).
  - vm_compute. by eexists.
  - vm_compute. discriminate.
Qed.

(** C9, amended.  Creating the registry entry for an identifier that is
    already bound does not fail: an upload that passes validation and is
    written is accepted, the identifier is bound to the new task dict
    ([pending], progress 0), and the dict it was bound to stays in memory as
    it was; bound under no other identifier before, it is bound under none
    afterwards, and the status endpoint answers for the new dict only. *)
Theorem resubmission_rebinds_identifier
    (w : world) (file : UploadFile) (uuid4 now : string) (old : nat) (d : Task.t) :
  analysis_tasks w !! uuid4 = Some old ->
  (forall tid, analysis_tasks w !! tid = Some old -> tid = uuid4) ->
  heap w !! old = Some d ->
  Py.endswith (filename file) ".war" = true ->
  (content_length (content file) <= 100 * 1024 * 1024)%N ->
  let answer := analyze_war_file w file uuid4 now None in
  answer.2 = Ok {| started_task_id := uuid4; started_message := "分析任務已啟動" |}
  /\ analysis_tasks answer.1 !! uuid4 = Some (length (heap w))
  /\ length (heap w) <> old
  /\ heap answer.1 !! old = Some d
  /\ (forall tid, analysis_tasks answer.1 !! tid <> Some old)
  /\ (forall tid, tid <> uuid4 -> analysis_tasks answer.1 !! tid = analysis_tasks w !! tid)
  /\ exists body, polled answer.1 uuid4 = Some body
                  /\ AnalysisResult.status body = pending
                  /\ AnalysisResult.progress body = 0
                  /\ AnalysisResult.result body = None
                  /\ AnalysisResult.error body = None.
Proof.
  intros Hold Honly Hd Hext Hsize answer. subst answer.
  rewrite analyze_war_file_passed by done. simpl.
  assert (Hnew : length (heap w) <> old) by (apply lookup_lt_Some in Hd; lia).
  split; [done|]. split; [by rewrite lookup_insert_eq|].
  split; [done|].
  split; [by apply lookup_app_l_Some|].
  split; [|split].
  - intros tid. destruct (decide (tid = uuid4)) as [->|Hne].
    + rewrite lookup_insert_eq. congruence.
    + rewrite lookup_insert_ne by done. intros H. by apply Hne, Honly.
  - intros tid Hne. by rewrite lookup_insert_ne.
  - eexists. split.
    + apply polled_inv. eexists _, _. simpl.
      rewrite lookup_insert_eq, list_lookup_middle by done. done.
    + done.
Qed.

Lemma resubmission_rebinds_identifier_two_stages_in :
  exists d,
    heap two_stages_in !! 0 = Some d
    /\ let answer := resubmitted in
       answer.2 = Ok {| started_task_id := "7c2d"; started_message := "分析任務已啟動" |}
       /\ analysis_tasks answer.1 !! "7c2d" = Some (length (heap two_stages_in))
       /\ length (heap two_stages_in) <> 0
       /\ heap answer.1 !! 0 = Some d
       /\ (forall tid, analysis_tasks answer.1 !! tid <> Some 0)
       /\ (forall tid, tid <> "7c2d" ->
             analysis_tasks answer.1 !! tid = analysis_tasks two_stages_in !! tid)
       /\ exists body, polled answer.1 "7c2d" = Some body
                       /\ AnalysisResult.status body = pending
                       /\ AnalysisResult.progress body = 0
                       /\ AnalysisResult.result body = None
                       /\ AnalysisResult.error body = None.
Proof.
  eexists. split; [vm_compute; reflexivity|].
  apply (resubmission_rebinds_identifier two_stages_in shop_war "7c2d"
           "2025-01-01T00:01:00" 0).
  - vm_compute. reflexivity.
  - intros tid. destruct (decide (tid = "7c2d")) as [->|Hne]; [done|].
    change (analysis_tasks two_stages_in) with (<["7c2d" := 0]> (∅ : gmap string nat)).
    rewrite lookup_insert_ne by done. rewrite lookup_empty. discriminate.
  - vm_compute. reflexivity.
  - vm_compute. reflexivity.
  - vm_compute. discriminate.
Defined.

(** ** Loading the module *)

(** With [List] among the names imported from [typing] the module loads
    and binds every operation, on either kind of interpreter. *)
Lemma main_py_loads_with_List (py : annotations) :
  exists globals,
    load py is_builtin (main_py ("List" :: typing_imports)) = Loaded globals
    /\ forallb (fun op => mem op globals) operations = true.
Proof. destruct py; eexists; split; vm_compute; reflexivity. Qed.

(** The failure comes from the annotation alone: with
    [from __future__ import annotations] the same statements load on an
    interpreter that otherwise evaluates annotations at once. *)
Remark main_py_loads_postponed :
  exists globals,
    load Eager is_builtin
      {| future_annotations := true; body := body (main_py typing_imports) |}
      = Loaded globals
    /\ forallb (fun op => mem op globals) operations = true.
Proof. eexists. split; vm_compute; reflexivity. Qed.

(** C1 as it is stated does not hold of every execution: an interpreter that
    defers the evaluation of annotations (CPython 3.14 and later) never
    looks [List] up, loads [main.py] as it is written and binds every
    operation.  The annotations that the route decorators and the base class
    [BaseModel] receive name only imported classes and built-ins. *)
Lemma deferred_annotations_counterexample :
  exists globals,
    load Deferred is_builtin (main_py typing_imports) = Loaded globals
    /\ forallb (fun op => mem op globals) operations = true
    /\ forallb (known is_builtin [] globals)
         (flat_map handed_over (body (main_py typing_imports))) = true
    /\ mem "List" (flat_map handed_over (body (main_py typing_imports))) = false.
Proof. eexists. repeat split; vm_compute; reflexivity. Qed.

(** C1, amended.  On an interpreter that evaluates annotations when the
    [def] statement runs (CPython up to 3.13), loading [main.py] as it is
    written fails: executing the body of [class SimplifiedWARAnalyzer] looks
    up [List] for the return annotation of [analyze_sql_patterns]; the name
    is not among those imported from [typing] nor a built-in, so [NameError]
    is raised, and none of the operations (the analyzer class, submission,
    the runner, polling) is bound in the module.  On an interpreter that
    defers annotations the same module loads with every operation bound. *)
Theorem module_load_raises_NameError (builtins : string -> bool) :
  builtins "List" = false -> builtins "str" = true -> builtins "int" = true ->
  (exists globals,
     load Eager builtins (main_py typing_imports) = NameError "List" globals
     /\ forallb (fun op => negb (mem op globals)) operations = true)
  /\ (exists globals,
     load Deferred builtins (main_py typing_imports) = Loaded globals
     /\ forallb (fun op => mem op globals) operations = true).
Proof.
  intros HList Hstr Hint. split.
  - eexists. split.
    + unfold load, main_py, typing_imports. cbn -[String.eqb].
      unfold missing, known. cbn. rewrite ?Hstr, ?Hint, ?HList. cbn.
      rewrite ?Hstr, ?Hint, ?HList. cbn. reflexivity.
    + vm_compute. reflexivity.
  - eexists. split.
    + unfold load, main_py, typing_imports. cbn -[String.eqb].
      unfold missing, known. cbn. reflexivity.
    + vm_compute. reflexivity.
Qed.

Lemma module_load_raises_NameError_python :
  (exists globals,
     load Eager is_builtin (main_py typing_imports) = NameError "List" globals
     /\ forallb (fun op => negb (mem op globals)) operations = true)
  /\ (exists globals,
     load Deferred is_builtin (main_py typing_imports) = Loaded globals
     /\ forallb (fun op => mem op globals) operations = true).
Proof.
  apply (module_load_raises_NameError is_builtin); vm_compute; reflexivity.
Defined.

(** * Further properties of the code *)

(** ** [analyze_war_structure] and [analyze_war]: failures *)

Lemma analyze_war_structure_cases fs path :
  match fs !! path with
  | None => exists e, analyze_war_structure fs path = Raise e
  | Some content =>
      match zip_namelist content with
      | Raise e => analyze_war_structure fs path = Raise e
      | Return names => exists info, analyze_war_structure fs path = Return info
      end
  end.
Proof.
  destruct (fs !! path) as [content|] eqn:Hfs.
  - destruct (zip_namelist content) as [names|e] eqn:Hzip.
    + eexists. by apply (analyze_war_structure_returns fs path content names).
    + unfold analyze_war_structure, getsize, namelist. rewrite Hfs, Hzip. reflexivity.
  - eexists. unfold analyze_war_structure, getsize. rewrite Hfs. reflexivity.
Qed.

Lemma analyze_war_unfold fs now path :
  analyze_war fs now path =
  match analyze_war_structure fs path with
  | Raise e => Raise e
  | Return structure_info =>
      let components := analyze_spring_components structure_info in
      let sql_patterns := analyze_sql_patterns structure_info in
      let suggestions := generate_modernization_suggestions components sql_patterns in
      Return
        {| project_name := Py.replace ".war" "" (file_name structure_info);
           analysis_time := now;
           war_info := structure_info;
           spring_components := components;
           sql_patterns := sql_patterns;
           modernization_suggestions := suggestions;
           competitive_advantage :=
             {| processing_time := "7.1 seconds";
                vs_leda := "761x faster than LEDA 90-minute failure";
                vs_traditional := "1000x faster than manual analysis";
                professional_analysis := "COBOL-to-Java specific insights";
                actionable_recommendations :=
                  Py.str_of_nat (length suggestions) +:+ " implementation strategies" |};
           summary :=
             {| summary_total_components := total_components components;
                sql_patterns_found := length sql_patterns;
                high_priority_suggestions :=
                  length (List.filter (fun s => String.eqb (priority s) "HIGH") suggestions);
                estimated_modernization_effort := "4-6 months";
                expected_roi := "75% maintenance efficiency improvement" |} |}
  end.
Proof. unfold analyze_war. by destruct (analyze_war_structure fs path). Qed.

Lemma analyze_war_raises_with_zipfile fs now path content e :
  fs !! path = Some content -> zip_namelist content = Raise e ->
  analyze_war fs now path = Raise e.
Proof.
  intros Hfs Hzip. pose proof (analyze_war_structure_cases fs path) as Hc.
  rewrite Hfs, Hzip in Hc. by rewrite analyze_war_unfold, Hc.
Qed.

(** X1.  The analysis fails exactly when the inspection of the archive
    fails, and with the same exception: the two [except Exception: ... raise]
    blocks pass it on unchanged.  The inspection fails exactly when the file
    is missing or [zipfile] cannot list it, in the latter case with the
    exception of [zipfile]. *)
Theorem analysis_fails_as_inspection_does
    (fs : gmap string file_content) (now path : string) :
  (forall e, analyze_war fs now path = Raise e <-> analyze_war_structure fs path = Raise e)
  /\ ((exists e, analyze_war_structure fs path = Raise e) <->
      fs !! path = None \/ exists content e, fs !! path = Some content
                                             /\ zip_namelist content = Raise e)
  /\ (forall content e,
        fs !! path = Some content -> zip_namelist content = Raise e ->
        analyze_war fs now path = Raise e).
Proof.
  pose proof (analyze_war_structure_cases fs path) as Hc.
  rewrite analyze_war_unfold. split; [|split].
  - intros e. destruct (analyze_war_structure fs path); simpl; split; congruence.
  - destruct (fs !! path) as [content|] eqn:Hfs.
    + destruct (zip_namelist content) as [names|e] eqn:Hzip.
      * destruct Hc as [info ->]. split; [by intros [e [=]]|].
        intros [[=]|(c & e & [= <-] & He)]. congruence.
      * rewrite Hc. split; [|by eexists]. intros _. right. by exists content, e.
    + split; [by left | done].
  - intros content e Hfs Hzip. rewrite Hfs, Hzip in Hc. by rewrite Hc.
Qed.

(** ** [analyze_war_structure]: what it returns *)







(** ** The component estimate *)

Ltac divisions n :=
  pose proof (Nat.div_mod_eq n 10); pose proof (Nat.mod_upper_bound n 10);
  pose proof (Nat.div_mod_eq n 15); pose proof (Nat.mod_upper_bound n 15);
  pose proof (Nat.div_mod_eq n 20); pose proof (Nat.mod_upper_bound n 20);
  pose proof (Nat.div_mod_eq n 25); pose proof (Nat.mod_upper_bound n 25).

Lemma role_block_length role pkg n : length (role_block role pkg n) = n.
Proof. unfold role_block. by rewrite length_map, length_seq. Qed.

Lemma role_block_lookup role pkg n i c :
  role_block role pkg n !! i = Some c <-> i < n /\ c = descriptor role pkg (S i).
Proof.
  unfold role_block. change (map ?f ?l) with (f <$> l). rewrite list_lookup_fmap. split.
  - intros H. destruct (seq 1 n !! i) as [k|] eqn:Hk; [|done].
    apply lookup_seq in Hk as [-> Hlt]. simpl in H. injection H as <-. done.
  - intros [Hlt ->]. by rewrite lookup_seq_lt.
Qed.

Lemma role_block_type role pkg n c : c ∈ role_block role pkg n -> type c = role.
Proof. intros (i & [_ ->]%role_block_lookup)%list_elem_of_lookup. done. Qed.

(** X3.  The total of the component estimate is the sum of the three
    counts, at least 3, counted before the list is cut: the displayed list
    has [min(10, total)] entries.  There are never more repositories than
    controllers nor more controllers than services. *)
Theorem component_totals (facts : StructureInfo) :
  let r := analyze_spring_components facts in
  total_components r = controllers r + services r + repositories r
  /\ 3 <= total_components r
  /\ length (components r) = Nat.min 10 (total_components r)
  /\ repositories r <= controllers r
  /\ controllers r <= services r.
Proof.
  intros r. subst r. rewrite analyze_spring_components_unfold.
  unfold estimate_components_spec. cbn [total_components controllers services
    repositories components].
  rewrite length_take, !length_app, !role_block_length.
  divisions (total_classes facts). repeat split; lia.
Qed.

(** X4.  Which roles the displayed list holds: a controller always; a
    service exactly when there are fewer than 200 compiled units; a
    repository exactly when there are fewer than 90.  From 200 compiled
    units on the list is [Controller1] to [Controller10]. *)
Theorem displayed_roles (facts : StructureInfo) :
  let n := total_classes facts in
  let r := analyze_spring_components facts in
  (exists c, c ∈ components r /\ type c = "Controller")
  /\ ((exists c, c ∈ components r /\ type c = "Service") <-> n < 200)
  /\ ((exists c, c ∈ components r /\ type c = "Repository") <-> n < 90)
  /\ (200 <= n -> components r = role_block "Controller" "com.nbs.web" 10).
Proof.
  intros n r. subst r. rewrite analyze_spring_components_unfold.
  unfold estimate_components_spec. cbn [components]. fold n.
  set (c := Nat.max 1 (n / 20)). set (s := Nat.max 1 (n / 15)).
  set (p := Nat.max 1 (n / 25)).
  set (C := role_block "Controller" "com.nbs.web" c).
  set (S := role_block "Service" "com.nbs.service" s).
  set (R := role_block "Repository" "com.nbs.dao" p).
  assert (HC : length C = c) by apply role_block_length.
  assert (HS : length S = s) by apply role_block_length.
  assert (Hin : forall x, x ∈ take 10 (C ++ S ++ R) <->
            exists i, i < 10 /\
              (C !! i = Some x
               \/ (c <= i /\ S !! (i - c) = Some x)
               \/ (c + s <= i /\ R !! (i - c - s) = Some x))).
  { intros x. rewrite elem_of_take. split.
    - intros (i & Hi & Hlt). exists i. split; [done|].
      apply lookup_app_Some in Hi as [Hi|[Hle Hi]]; [by left|]. rewrite HC in *.
      apply lookup_app_Some in Hi as [Hi|[Hle' Hi]]; [right; by left|].
      rewrite HS in *. right; right. split; [lia|].
      by replace (i - c - s) with (i - c - s) by lia.
    - intros (i & Hlt & [Hi|[[Hle Hi]|[Hle Hi]]]); exists i; (split; [|done]).
      + by apply lookup_app_l_Some.
      + apply lookup_app_Some. right. rewrite HC. split; [done|].
        by apply lookup_app_l_Some.
      + apply lookup_app_Some. right. rewrite HC. split; [lia|].
        apply lookup_app_Some. right. rewrite HS. split; [lia | done]. }
  divisions n.
  split; [|split; [|split]].
  - exists (descriptor "Controller" "com.nbs.web" 1). split; [|done].
    apply Hin. exists 0. split; [lia|]. left. apply role_block_lookup. split; [lia|done].
  - split.
    + intros (x & (i & Hlt & [Hi|[[Hle Hi]|[Hle Hi]]])%Hin & Hty).
      * apply role_block_lookup in Hi as [_ ->]. discriminate Hty.
      * lia.
      * apply role_block_lookup in Hi as [_ ->]. discriminate Hty.
    + intros Hn. exists (descriptor "Service" "com.nbs.service" 1). split; [|done].
      apply Hin. exists c. split; [lia|]. right; left. split; [done|].
      apply role_block_lookup. split; [lia|]. by replace (c - c) with 0 by lia.
  - split.
    + intros (x & (i & Hlt & [Hi|[[Hle Hi]|[Hle Hi]]])%Hin & Hty).
      * apply role_block_lookup in Hi as [_ ->]. discriminate Hty.
      * apply role_block_lookup in Hi as [_ ->]. discriminate Hty.
      * lia.
    + intros Hn. exists (descriptor "Repository" "com.nbs.dao" 1). split; [|done].
      apply Hin. exists (c + s). split; [lia|]. right; right. split; [done|].
      apply role_block_lookup. split; [lia|]. by replace (c + s - c - s) with 0 by lia.
  - intros Hn. rewrite take_app_le by lia.
    unfold C, role_block. change (map ?f ?l) with (f <$> l).
    rewrite <- fmap_take, take_seq. do 2 f_equal. lia.
Qed.

Lemma str_of_nat_inj i j : Py.str_of_nat i = Py.str_of_nat j -> i = j.
Proof. unfold Py.str_of_nat. apply (inj pretty). Qed.

Lemma string_app_cancel_r (a b s : string) : a +:+ s = b +:+ s -> a = b.
Proof.
  intros H. apply string_app_inv_length in H; [tauto|].
  apply (f_equal String.length) in H. rewrite !string_app_length in H. lia.
Qed.

Lemma role_block_names role pkg n :
  name <$> role_block role pkg n = (fun i => role +:+ Py.str_of_nat i) <$> seq 1 n.
Proof.
  unfold role_block. change (map ?f ?l) with (f <$> l).
  by rewrite <- list_fmap_compose.
Qed.

Lemma role_block_names_NoDup role pkg n : NoDup (name <$> role_block role pkg n).
Proof.
  rewrite role_block_names. apply NoDup_fmap_2_strong; [|apply NoDup_seq].
  intros i j _ _ H. apply str_of_nat_inj. by apply (inj (String.append role)) in H.
Qed.

Lemma role_block_names_head role pkg n x :
  x ∈ name <$> role_block role pkg n -> exists i, x = role +:+ Py.str_of_nat i.
Proof.
  rewrite role_block_names. intros (i & -> & _)%list_elem_of_fmap. by exists i.
Qed.

(** X5.  The names of the displayed components are pairwise distinct. *)
Theorem component_names_distinct (facts : StructureInfo) :
  NoDup (name <$> components (analyze_spring_components facts)).
Proof.
  rewrite analyze_spring_components_unfold. unfold estimate_components_spec.
  cbn [components]. rewrite fmap_take.
  eapply sublist_NoDup; [|apply sublist_take].
  rewrite !fmap_app. apply NoDup_app. split; [apply role_block_names_NoDup|]. split.
  - intros x [i ->]%role_block_names_head [Hs|Hr]%elem_of_app.
    + apply role_block_names_head in Hs as [j Hj]. discriminate Hj.
    + apply role_block_names_head in Hr as [j Hj]. discriminate Hj.
  - apply NoDup_app. split; [apply role_block_names_NoDup|].
    split; [|apply role_block_names_NoDup].
    intros x [i ->]%role_block_names_head [j Hj]%role_block_names_head.
    discriminate Hj.
Qed.

(** ** The pattern findings *)

(** X6.  There are between 1 and 10 findings, 10 exactly from 100 compiled
    units on.  No two findings share a source file or a statement.  Pattern
    kind and risk level go together: [executeSQL] is always [HIGH],
    [createStatement().execute] always [CRITICAL], [prepareStatement] always
    [MEDIUM]; and the first finding is an [executeSQL] one. *)
Theorem findings_distinct_and_paired (facts : StructureInfo) :
  let findings := analyze_sql_patterns facts in
  1 <= length findings <= 10
  /\ (length findings = 10 <-> 100 <= total_classes facts)
  /\ NoDup (file <$> findings)
  /\ NoDup (sql_statement <$> findings)
  /\ Forall (fun p =>
       (pattern_type p = "executeSQL" /\ risk_level p = "HIGH")
       \/ (pattern_type p = "createStatement().execute" /\ risk_level p = "CRITICAL")
       \/ (pattern_type p = "prepareStatement" /\ risk_level p = "MEDIUM")) findings
  /\ (pattern_type <$> findings !! 0 = Some "executeSQL").
Proof.
  intros findings. subst findings. rewrite analyze_sql_patterns_unfold.
  set (count := Nat.min 10 (Nat.max 1 (total_classes facts / 10))).
  change (map ?f ?l) with (f <$> l).
  rewrite length_fmap, length_seq.
  assert (Hcount : 1 <= count <= 10) by (unfold count; lia).
  split; [done|]. split; [|split; [|split; [|split]]].
  - unfold count. divisions (total_classes facts). lia.
  - rewrite <- list_fmap_compose. apply NoDup_fmap_2_strong; [|apply NoDup_seq].
    intros i j _ _ H. simpl in H. unfold source_file_extension in H.
    apply (inj (String.append "LegacyClass")) in H.
    apply string_app_cancel_r, str_of_nat_inj in H. lia.
  - rewrite <- list_fmap_compose. apply NoDup_fmap_2_strong; [|apply NoDup_seq].
    intros i j _ _ H. simpl in H.
    apply (inj (String.append "SELECT * FROM table_")) in H.
    apply string_app_cancel_r, str_of_nat_inj in H. lia.
  - apply Forall_fmap, Forall_forall. intros i _.
    unfold compose, finding_spec. cbn [pattern_type risk_level].
    pose proof (Nat.mod_upper_bound i 3 ltac:(lia)) as Hm.
    destruct (i mod 3) as [|[|[|k]]]; simpl;
      [by left | right; by left | right; by right | lia].
  - destruct count as [|k]; [lia | reflexivity].
Qed.

(** ** The suggestions and the assembled result *)

(** X7.  The suggestions follow two rules in a fixed order: the
    data-access rule ([HIGH]) when there is at least one pattern finding,
    then the API rule ([MEDIUM]) when the controller count is positive.
    Nothing is suggested exactly when there is no finding and no controller;
    every suggestion lists four actions. *)
Theorem suggestion_rules (components : SpringComponents) (sql_patterns : list SqlPattern) :
  let suggestions := generate_modernization_suggestions components sql_patterns in
  priority <$> suggestions =
    (match sql_patterns with [] => [] | _ :: _ => ["HIGH"] end)
    ++ (if (0 <? controllers components)%nat then ["MEDIUM"] else [])
  /\ category <$> suggestions =
    (match sql_patterns with [] => [] | _ :: _ => ["資料存取層現代化"] end)
    ++ (if (0 <? controllers components)%nat then ["API層標準化"] else [])
  /\ (suggestions = [] <-> sql_patterns = [] /\ controllers components = 0)
  /\ Forall (fun s => length (specific_actions s) = 4) suggestions.
Proof.
  unfold generate_modernization_suggestions.
  destruct sql_patterns as [|p ps]; destruct (Nat.ltb_spec 0 (controllers components));
    simpl; repeat split; try done; try lia;
    try (intros [? ?]; (done || lia)); repeat constructor.
Qed.

Lemma Return_inj {A} (a b : A) : Return a = Return b -> a = b.
Proof. congruence. Qed.

(** X8.  In every result the analysis returns, both suggestion rules have
    fired, in the order [HIGH], [MEDIUM]; the summary counts one
    high-priority suggestion and the recommendations line reads
    [2 implementation strategies].  The summary's component total is the
    sum of the three role counts, so it is never below the length of the
    displayed list; the number of findings is between 1 and 10; the
    timestamp is the clock reading and the archive name the last component of
    the path. *)
Theorem result_summary
    (fs : gmap string file_content) (now path : string) (result : WarAnalysis) :
  analyze_war fs now path = Return result ->
  priority <$> modernization_suggestions result = ["HIGH"; "MEDIUM"]
  /\ high_priority_suggestions (summary result) = 1
  /\ actionable_recommendations (competitive_advantage result)
     = "2 implementation strategies"
  /\ summary_total_components (summary result)
     = controllers (spring_components result) + services (spring_components result)
       + repositories (spring_components result)
  /\ length (components (spring_components result))
     <= summary_total_components (summary result)
  /\ sql_patterns_found (summary result) = length (sql_patterns result)
  /\ 1 <= sql_patterns_found (summary result) <= 10
  /\ analysis_time result = now
  /\ file_name (war_info result) = Py.basename path.
Proof.
  rewrite analyze_war_unfold.
  destruct (analyze_war_structure fs path) as [info|e] eqn:Hs; [|done].
  cbv zeta. rewrite !analyze_spring_components_unfold, !analyze_sql_patterns_unfold.
  set (n := total_classes info).
  assert (Hsug : exists s1 s2,
            generate_modernization_suggestions (estimate_components_spec n)
              (map (finding_spec source_file_extension)
                   (seq 0 (Nat.min 10 (Nat.max 1 (n / 10))))) = [s1; s2]
            /\ priority s1 = "HIGH" /\ priority s2 = "MEDIUM").
  { unfold generate_modernization_suggestions.
    cbn [controllers estimate_components_spec].
    destruct (Nat.min 10 (Nat.max 1 (n / 10))) as [|k] eqn:Hk; [lia|].
    cbn [seq map]. destruct (Nat.ltb_spec 0 (Nat.max 1 (n / 20))); [|lia].
    eexists _, _. split; [reflexivity|]. done. }
  destruct Hsug as (s1 & s2 & -> & H1 & H2).
  assert (Hname : file_name info = Py.basename path).
  { unfold analyze_war_structure in Hs.
    destruct (getsize fs path); [|done]. destruct (namelist fs path); [|done].
    simpl in Hs. destruct (List.filter _ _); by injection Hs as <-. }
  intros <-%Return_inj. unfold estimate_components_spec.
  set (cnt := Nat.min 10 (Nat.max 1 (n / 10))).
  set (c := Nat.max 1 (n / 20)). set (s := Nat.max 1 (n / 15)).
  set (p := Nat.max 1 (n / 25)).
  assert (1 <= cnt <= 10) by (unfold cnt; lia). clearbody cnt c s p.
  cbn [modernization_suggestions summary competitive_advantage
    high_priority_suggestions actionable_recommendations summary_total_components
    spring_components sql_patterns_found sql_patterns analysis_time war_info
    total_components controllers services repositories components].
  change (map ?f ?l) with (f <$> l).
  rewrite length_fmap, length_seq, length_take, !length_app, !role_block_length.
  cbn [fmap list_fmap List.filter]. rewrite H1, H2.
  repeat split; try done; lia.
Qed.

Lemma result_summary_warehouse :
  exists result,
    analyze_war warehouse_fs "2025-01-01T00:00:00" "/tmp/7c2d_app.warehouse.war"
      = Return result
    /\ priority <$> modernization_suggestions result = ["HIGH"; "MEDIUM"]
    /\ high_priority_suggestions (summary result) = 1
    /\ actionable_recommendations (competitive_advantage result)
       = "2 implementation strategies"
    /\ summary_total_components (summary result)
       = controllers (spring_components result) + services (spring_components result)
         + repositories (spring_components result)
    /\ length (components (spring_components result))
       <= summary_total_components (summary result)
    /\ sql_patterns_found (summary result) = length (sql_patterns result)
    /\ 1 <= sql_patterns_found (summary result) <= 10
    /\ analysis_time result = "2025-01-01T00:00:00"
    /\ file_name (war_info result) = Py.basename "/tmp/7c2d_app.warehouse.war".
Proof.
  eexists. split; [vm_compute; reflexivity|].
  apply (result_summary warehouse_fs). vm_compute. reflexivity.
Defined.

(** ** The project name of an archive named plainly *)

Lemma startswith_app_long a b p :
  String.length p <= String.length a -> Py.startswith (a +:+ b) p = Py.startswith a p.
Proof.
  revert a. induction p as [|x p IH]; intros a Hlen; [done|].
  destruct a as [|y a]; simpl in *; [lia|].
  destruct (Ascii.eqb x y); simpl; [|done]. apply IH. lia.
Qed.

Lemma replace_plain_name stem :
  Py.contains ".war" (stem +:+ ".wa") = false ->
  Py.replace ".war" "" (stem +:+ ".war") = stem.
Proof.
  unfold Py.replace. induction stem as [|c stem IH]; [reflexivity|].
  change (Py.contains ".war" (String c stem +:+ ".wa"))
    with (if Py.startswith (String c (stem +:+ ".wa")) ".war" then true
          else Py.contains ".war" (stem +:+ ".wa")).
  destruct (Py.startswith (String c (stem +:+ ".wa")) ".war") eqn:Hs; [done|].
  intros Hc.
  change (Py.replace_from ".war" "" 0 (String c stem +:+ ".war"))
    with (if Py.startswith (String c (stem +:+ ".war")) ".war"
          then "" +:+ Py.replace_from ".war" "" (String.length ".war" - 1) (stem +:+ ".war")
          else String c (Py.replace_from ".war" "" 0 (stem +:+ ".war"))).
  replace (String c (stem +:+ ".war")) with (String c (stem +:+ ".wa") +:+ "r").
  - rewrite startswith_app_long, Hs; [by rewrite (IH Hc)|].
    simpl. rewrite string_app_length. simpl. lia.
  - simpl. by rewrite string_app_assoc.
Qed.

(** X9.  When the last component of the path is [stem.war] and [.war]
    occurs nowhere else in it, the project name of the result is [stem]. *)
Theorem project_name_of_plain_archive
    (fs : gmap string file_content) (now path stem : string) (result : WarAnalysis) :
  Py.basename path = stem +:+ ".war" ->
  Py.contains ".war" (stem +:+ ".wa") = false ->
  analyze_war fs now path = Return result ->
  project_name result = stem.
Proof.
  intros Hbase Hplain. rewrite analyze_war_unfold.
  destruct (analyze_war_structure fs path) as [info|e] eqn:Hs; [|done].
  intros <-%Return_inj. cbn [project_name].
  assert (file_name info = Py.basename path) as ->.
  { unfold analyze_war_structure in Hs.
    destruct (getsize fs path); [|done]. destruct (namelist fs path); [|done].
    simpl in Hs. destruct (List.filter _ _); by injection Hs as <-. }
  rewrite Hbase. by apply replace_plain_name.
Qed.

Lemma project_name_of_plain_archive_shop :
  exists result,
    analyze_war {[ "/tmp/1f0e_shop.war" := scenario_war ]} "2025-01-01T00:00:00"
      "/tmp/1f0e_shop.war" = Return result
    /\ project_name result = "1f0e_shop".
Proof.
  eexists. split; [vm_compute; reflexivity|].
  apply (project_name_of_plain_archive {[ "/tmp/1f0e_shop.war" := scenario_war ]}
           "2025-01-01T00:00:00" "/tmp/1f0e_shop.war" "1f0e_shop");
    vm_compute; reflexivity.
Defined.

(** ** What a resumption writes *)

Lemma alter_twice {A} (f g : A -> A) (i : nat) (l : list A) :
  alter f i (alter g i l) = alter (f ∘ g) i l.
Proof.
  apply list_eq. intros j. destruct (decide (i = j)) as [->|Hne].
  - rewrite !list_lookup_alter_eq. by destruct (l !! j).
  - by rewrite !list_lookup_alter_ne.
Qed.

Lemma gentle_id : gentle id.
Proof. intros d. by repeat split. Qed.

Ltac stage_pair := unfold in_step, stages; simpl; tauto.

Lemma cleanup_heap task r w : heap (cleanup task r w) = heap w.
Proof. by destruct (cleanup_keeps task r w) as (-> & _). Qed.

Lemma cleanup_background task r w : background (cleanup task r w) = background w.
Proof. by destruct (cleanup_keeps task r w) as (_ & _ & -> & _). Qed.

Lemma on_raise_heap task r e w :
  exists f, gentle f /\ heap (on_raise task r e w).1 = alter f task (heap w).
Proof.
  destruct e as [str_e|str_e]; simpl; rewrite cleanup_heap; simpl.
  - eexists. split; [|by rewrite !alter_twice].
    intros d. split; [by repeat split | done].
  - exists id. split; [apply gentle_id | by rewrite list_alter_id].
Qed.

(** A resumption applies one function to the dict the runner holds and
    leaves every other dict, the registry and the list of background
    invocations as they are. *)
Lemma perform_analysis_writes w rn r :
  (exists f, gentle f /\
     heap (perform_analysis w rn r).1 =
     match target w rn with
     | Some task => alter f task (heap w)
     | None => heap w
     end)
  /\ background (perform_analysis w rn r).1 = background w
  /\ gettempdir (perform_analysis w rn r).1 = gettempdir w.
Proof.
  destruct rn as [tid|task k| |e]; simpl.
  - destruct (analysis_tasks w !! tid) as [task|]; simpl; [|by split; [exists id; split; [apply gentle_id|]|]].
    split; [|done]. eexists. split; [|by rewrite !alter_twice].
    intros d. split; [by repeat split | intros _; stage_pair].
  - assert (Hraise : forall e,
        (exists f, gentle f /\ heap (on_raise task r e w).1 = alter f task (heap w))
        /\ background (on_raise task r e w).1 = background w
        /\ gettempdir (on_raise task r e w).1 = gettempdir w).
    { intros e. split; [apply on_raise_heap|].
      destruct e; simpl;
        match goal with |- context [cleanup _ _ ?w1] =>
          destruct (cleanup_keeps task r w1) as (_ & _ & -> & ->) end; done. }
    destruct (awaited r) as [e|]; [apply Hraise|].
    destruct k; simpl.
    1-3: split; [|done]; eexists; (split; [|by rewrite !alter_twice]);
         intros d; (split; [by repeat split | intros _; stage_pair]).
    unfold finish. destruct (heap w !! task) as [d|] eqn:Hd.
    + destruct (analyze_war _ _ _) as [result|e]; [|apply Hraise]. simpl.
      match goal with |- context [cleanup _ _ ?w1] =>
        destruct (cleanup_keeps task r w1) as (-> & _ & -> & ->) end. simpl.
      split; [|done]. eexists. split; [|by rewrite !alter_twice].
      intros d0. split; [by repeat split | intros _; stage_pair].
    + simpl. split; [|done]. exists id. split; [apply gentle_id | by rewrite list_alter_id].
  - split; [|done]. exists id. split; [apply gentle_id | done].
  - split; [|done]. exists id. split; [apply gentle_id | done].
Qed.

(** ** What no run undoes *)

Lemma analyze_war_file_cases w file uuid4 now write_error :
  (analyze_war_file w file uuid4 now write_error).1 = w
  \/ exists d0,
       (analyze_war_file w file uuid4 now write_error).1 =
       {| heap := heap w ++ [d0];
          analysis_tasks := <[uuid4 := length (heap w)]> (analysis_tasks w);
          files := <[stored_at w uuid4 file := content file]> (files w);
          gettempdir := gettempdir w;
          background := background w ++ [Scheduled uuid4] |}
       /\ Task.task_id d0 = uuid4 /\ Task.status d0 = pending /\ Task.progress d0 = 0
       /\ Task.message d0 = "準備開始分析..." /\ Task.start_time d0 = now
       /\ Task.file_path d0 = stored_at w uuid4 file
       /\ Task.file_name d0 = filename file
       /\ Task.end_time d0 = None /\ Task.result d0 = None /\ Task.error d0 = None
       /\ (analyze_war_file w file uuid4 now write_error).2
          = Ok {| started_task_id := uuid4; started_message := "分析任務已啟動" |}.
Proof.
  unfold analyze_war_file. destruct (negb _); [by left|].
  destruct (_ <? _)%N; [by left|]. destruct write_error; [by left|].
  right. eexists. split; [reflexivity|]. by repeat split.
Qed.

Lemma serve_heap w q :
  heap (serve w q) = heap w
  \/ (exists d0, heap (serve w q) = heap w ++ [d0] /\ in_step d0)
  \/ (exists f task, gentle f /\ heap (serve w q) = alter f task (heap w)).
Proof.
  destruct q as [file uuid4 now write_error|tid|i r]; simpl; [| by left |].
  - destruct (analyze_war_file_cases w file uuid4 now write_error)
      as [->|(d0 & -> & _ & _ & Hp & Hm & _)]; [by left|].
    right; left. exists d0. split; [done|]. unfold in_step. rewrite Hp, Hm.
    simpl. tauto.
  - destruct (background w !! i) as [rn|]; [|by left].
    destruct (perform_analysis_writes w rn r) as [(f & Hf & Hheap) _].
    destruct (perform_analysis w rn r) as [w' rn']. simpl in *.
    destruct (target w rn) as [task|]; [|by left].
    right; right. by exists f, task.
Qed.

Lemma serve_keeps_dict w q task d :
  heap w !! task = Some d ->
  exists d', heap (serve w q) !! task = Some d' /\ same_identity d d'
             /\ (in_step d -> in_step d').
Proof.
  intros Hd. destruct (serve_heap w q) as [->|[(d0 & -> & _)|(f & t & Hf & ->)]].
  - exists d. by repeat split.
  - exists d. split; [by apply lookup_app_l_Some | by repeat split].
  - destruct (decide (t = task)) as [->|Hne].
    + exists (f d). rewrite list_lookup_alter_eq, Hd. split; [done | apply Hf].
    + exists d. rewrite list_lookup_alter_ne by done. by repeat split.
Qed.

Lemma serve_keeps_identifier w q tid :
  is_Some (analysis_tasks w !! tid) -> is_Some (analysis_tasks (serve w q) !! tid).
Proof.
  intros Hid. destruct q as [file uuid4 now write_error|?|i r]; simpl; [|done|].
  - destruct (analyze_war_file_cases w file uuid4 now write_error)
      as [->|(d0 & -> & _)]; [done|]. simpl.
    destruct (decide (uuid4 = tid)) as [->|Hne].
    + rewrite lookup_insert_eq. by eexists.
    + by rewrite lookup_insert_ne.
  - destruct (background w !! i) as [rn|]; [|done].
    pose proof (perform_analysis_registry w rn r) as Hreg.
    destruct (perform_analysis w rn r) as [w' rn']. simpl in *. by rewrite Hreg.
Qed.

(** X10.  Over any run, whether identifiers repeat or not: an identifier
    of the registry stays in the registry, and a task dict stays where it is
    with the keys the runner never assigns ([task_id], [start_time],
    [file_path], [file_name]) unchanged.  Nothing is ever removed from the
    registry. *)
Theorem nothing_is_forgotten (qs : list request) (w : world) :
  (forall tid, is_Some (analysis_tasks w !! tid) ->
               is_Some (analysis_tasks (serve_all w qs) !! tid))
  /\ (forall task d, heap w !! task = Some d ->
        exists d', heap (serve_all w qs) !! task = Some d' /\ same_identity d d')
  /\ length (heap w) <= length (heap (serve_all w qs)).
Proof.
  revert w. induction qs as [|q qs IH]; intros w; simpl.
  - split; [done|]. split; [|done]. intros task d Hd. exists d. by repeat split.
  - destruct (IH (serve w q)) as (IH1 & IH2 & IH3). split; [|split].
    + intros tid Hid. by apply IH1, serve_keeps_identifier.
    + intros task d Hd.
      destruct (serve_keeps_dict w q task d Hd) as (d1 & Hd1 & Hs1 & _).
      destruct (IH2 task d1 Hd1) as (d' & Hd' & Hs').
      exists d'. split; [done|]. unfold same_identity in *.
      destruct Hs1 as (E1 & E2 & E3 & E4), Hs' as (F1 & F2 & F3 & F4).
      repeat split; congruence.
    + etrans; [|exact IH3].
      destruct (serve_heap w q) as [->|[(d0 & -> & _)|(f & t & _ & ->)]];
        rewrite ?length_app, ?length_alter; simpl; lia.
Qed.

Lemma serve_in_step w q : Forall in_step (heap w) -> Forall in_step (heap (serve w q)).
Proof.
  intros Hall. destruct (serve_heap w q) as [->|[(d0 & -> & Hd0)|(f & t & Hf & ->)]].
  - done.
  - apply Forall_app. split; [done | by constructor].
  - apply Forall_alter; [done|]. intros d _. apply Hf.
Qed.

(** X11.  In every state of a process started with an empty registry,
    whether identifiers repeat or not, the message of a task is the one that
    goes with its progress: [0], [20], [40], [60], [80] and [100] each have
    their message.  A failed task keeps the message of the last checkpoint
    it reached. *)
Theorem message_goes_with_progress
    (tmp : string) (fs : gmap string file_content) (qs : list request)
    (task : nat) (d : Task.t) :
  heap (serve_all (boot tmp fs) qs) !! task = Some d ->
  In (Task.progress d, Task.message d)
     [ (0, "準備開始分析..."); (20, "解析WAR檔案結構..."); (40, "檢測Spring框架配置...");
       (60, "分析Spring組件架構..."); (80, "識別SQL執行模式..."); (100, "分析完成！") ].
Proof.
  intros Hd.
  assert (Hall : Forall in_step (heap (serve_all (boot tmp fs) qs))).
  { clear Hd. assert (H0 : Forall in_step (heap (boot tmp fs))) by constructor.
    revert H0. generalize (boot tmp fs). induction qs as [|q qs IH]; intros w Hw; simpl;
      [done|]. by apply IH, serve_in_step. }
  rewrite Forall_lookup in Hall. exact (Hall task d Hd).
Qed.

Lemma message_goes_with_progress_failed :
  exists d,
    heap (run_unreadable (Exception "File is not a zip file")) !! 0 = Some d
    /\ In (Task.progress d, Task.message d)
          [ (0, "準備開始分析..."); (20, "解析WAR檔案結構..."); (40, "檢測Spring框架配置...");
            (60, "分析Spring組件架構..."); (80, "識別SQL執行模式..."); (100, "分析完成！") ].
Proof.
  eexists. split; [vm_compute; reflexivity|].
  apply (message_goes_with_progress "/tmp" ∅
           [ POST_analyze (unreadable_war (Exception "File is not a zip file")) "41aa"
               "2025-01-01T00:00:00" None;
             Wake 0 quiet; Wake 0 quiet; Wake 0 quiet; Wake 0 quiet; Wake 0 quiet ] 0).
  vm_compute. reflexivity.
Defined.

(** ** One runner, step by step *)

Lemma wake_at w i rn r :
  background w !! i = Some rn ->
  serve w (Wake i r) = set_runner i (perform_analysis w rn r).2 (perform_analysis w rn r).1.
Proof. intros H. simpl. rewrite H. by destruct (perform_analysis w rn r). Qed.

Lemma set_runner_lookup i rn w :
  i < length (background w) -> background (set_runner i rn w) !! i = Some rn.
Proof. intros H. simpl. by apply list_lookup_insert_eq. Qed.

Lemma wake_start w i tid task d r :
  background w !! i = Some (Scheduled tid) ->
  analysis_tasks w !! tid = Some task ->
  heap w !! task = Some d ->
  let w' := serve w (Wake i r) in
  background w' !! i = Some (Sleeping task Sleep1)
  /\ heap w' !! task
     = Some (Task.set_message "解析WAR檔案結構..."
               (Task.set_progress 20 (Task.set_status processing d)))
  /\ files w' = files w /\ analysis_tasks w' = analysis_tasks w.
Proof.
  intros Hi Ht Hd w'. subst w'. rewrite (wake_at w i _ r Hi).
  cbn [perform_analysis]. rewrite Ht. cbn [stage fst snd].
  split; [apply set_runner_lookup; simpl; by eapply lookup_lt_Some|].
  split; [|done]. simpl. lookups. by rewrite Hd.
Qed.

Lemma wake_stage w i task d at_ r p m next :
  background w !! i = Some (Sleeping task at_) ->
  heap w !! task = Some d ->
  awaited r = None ->
  stage_after at_ = Some (p, m, next) ->
  let w' := serve w (Wake i r) in
  background w' !! i = Some (Sleeping task next)
  /\ heap w' !! task = Some (Task.set_message m (Task.set_progress p d))
  /\ files w' = files w /\ analysis_tasks w' = analysis_tasks w.
Proof.
  intros Hi Hd Ha Hst w'. subst w'. rewrite (wake_at w i _ r Hi).
  cbn [perform_analysis]. rewrite Ha.
  destruct at_; simpl in Hst; try done; injection Hst as <- <- <-; cbn [stage fst snd].
  all: split; [apply set_runner_lookup; simpl; by eapply lookup_lt_Some|].
  all: split; [|done]; simpl; lookups; by rewrite Hd.
Qed.

Lemma finish_returns w task d r result :
  heap w !! task = Some d ->
  analyze_war (files w) (analysis_clock r) (Task.file_path d) = Return result ->
  (finish task r w).2 = Returned
  /\ heap (finish task r w).1 !! task
     = Some (Task.set_result result
               (Task.set_end_time (end_clock r)
                  (Task.set_status completed
                     (Task.set_message "分析完成！" (Task.set_progress 100 d)))))
  /\ files (finish task r w).1
     = (if remove_fails r then files w else delete (Task.file_path d) (files w))
  /\ analysis_tasks (finish task r w).1 = analysis_tasks w.
Proof.
  intros Hd Hres. split; [|split; [|split]].
  - unfold finish. by rewrite Hd, Hres.
  - unfold finish. rewrite Hd, Hres. simpl. rewrite cleanup_heap. simpl. lookups.
    by rewrite Hd.
  - by apply finish_files.
  - unfold finish. rewrite Hd, Hres. simpl.
    match goal with |- context [cleanup _ _ ?w1] =>
      destruct (cleanup_keeps task r w1) as (_ & -> & _) end. done.
Qed.

Lemma finish_raises w task d r str_e :
  heap w !! task = Some d ->
  analyze_war (files w) (analysis_clock r) (Task.file_path d) = Raise (Exception str_e) ->
  (finish task r w).2 = Returned
  /\ heap (finish task r w).1 !! task
     = Some (Task.set_end_time (end_clock r)
               (Task.set_error str_e (Task.set_status failed d)))
  /\ files (finish task r w).1
     = (if remove_fails r then files w else delete (Task.file_path d) (files w))
  /\ analysis_tasks (finish task r w).1 = analysis_tasks w.
Proof.
  intros Hd Hres. split; [|split; [|split]].
  - unfold finish. by rewrite Hd, Hres.
  - unfold finish. rewrite Hd, Hres. simpl. rewrite cleanup_heap. simpl. lookups.
    by rewrite Hd.
  - by apply finish_files.
  - unfold finish. rewrite Hd, Hres. simpl.
    match goal with |- context [cleanup _ _ ?w1] =>
      destruct (cleanup_keeps task r w1) as (_ & -> & _) end. done.
Qed.

Lemma wake_finish w i task r :
  background w !! i = Some (Sleeping task Sleep4) ->
  awaited r = None ->
  let w' := serve w (Wake i r) in
  background w' !! i = Some (finish task r w).2
  /\ heap w' = heap (finish task r w).1
  /\ files w' = files (finish task r w).1
  /\ analysis_tasks w' = analysis_tasks (finish task r w).1.
Proof.
  intros Hi Ha w'. subst w'. rewrite (wake_at w i _ r Hi).
  cbn [perform_analysis]. rewrite Ha.
  split; [|done]. apply set_runner_lookup.
  destruct (perform_analysis_writes w (Sleeping task Sleep4) r) as (_ & Hb & _).
  cbn [perform_analysis] in Hb. rewrite Ha in Hb. rewrite Hb. by eapply lookup_lt_Some.
Qed.

(** X12.  The step that completes a task: when the last [await] returns
    and the analysis of the stored file returns a result, the runner
    returns, the task is [completed] with progress 100, the completion
    message, the result attached and the completion time set, the error, if
    any, untouched; the temporary file is gone unless [os.remove] failed. *)
Theorem completion_step
    (w : world) (task : nat) (d : Task.t) (r : resume) (result : WarAnalysis) :
  heap w !! task = Some d ->
  awaited r = None ->
  analyze_war (files w) (analysis_clock r) (Task.file_path d) = Return result ->
  let after := perform_analysis w (Sleeping task Sleep4) r in
  after.2 = Returned
  /\ (exists d', heap after.1 !! task = Some d'
        /\ Task.status d' = completed /\ Task.progress d' = 100
        /\ Task.message d' = "分析完成！"
        /\ Task.result d' = Some result
        /\ Task.end_time d' = Some (end_clock r)
        /\ Task.error d' = Task.error d
        /\ same_identity d d')
  /\ (remove_fails r = false -> files after.1 !! Task.file_path d = None)
  /\ (remove_fails r = true -> files after.1 = files w).
Proof.
  intros Hd Ha Hres after. subst after. cbn [perform_analysis]. rewrite Ha.
  destruct (finish_returns w task d r result Hd Hres) as (H1 & H2 & H3 & _).
  split; [done|]. split; [|split].
  - eexists. split; [exact H2|]. by repeat split.
  - intros Hrm. rewrite H3, Hrm. apply lookup_delete_eq.
  - intros Hrm. by rewrite H3, Hrm.
Qed.

Lemma completion_step_four_stages_in :
  exists d result,
    heap four_stages_in !! 0 = Some d
    /\ analyze_war (files four_stages_in) (analysis_clock quiet) (Task.file_path d)
       = Return result
    /\ let after := perform_analysis four_stages_in (Sleeping 0 Sleep4) quiet in
       after.2 = Returned
       /\ (exists d', heap after.1 !! 0 = Some d'
             /\ Task.status d' = completed /\ Task.progress d' = 100
             /\ Task.message d' = "分析完成！"
             /\ Task.result d' = Some result
             /\ Task.end_time d' = Some (end_clock quiet)
             /\ Task.error d' = Task.error d
             /\ same_identity d d')
       /\ (remove_fails quiet = false -> files after.1 !! Task.file_path d = None)
       /\ (remove_fails quiet = true -> files after.1 = files four_stages_in).
Proof.
  eexists _, _. split; [vm_compute; reflexivity|].
  split; [vm_compute; reflexivity|].
  apply (completion_step four_stages_in 0); vm_compute; reflexivity.
Defined.

(** ** A submission and its runner, end to end *)

(** The state after a submission and the four stages of its runner. *)
Lemma submit_and_four_stages w file uuid4 now r1 r2 r3 r4 :
  Py.endswith (filename file) ".war" = true ->
  (content_length (content file) <= MiB_100)%N ->
  awaited r2 = None -> awaited r3 = None -> awaited r4 = None ->
  let i := length (background w) in
  let task := length (heap w) in
  let w4 := serve_all w [ POST_analyze file uuid4 now None;
                          Wake i r1; Wake i r2; Wake i r3; Wake i r4 ] in
  exists d,
    background w4 !! i = Some (Sleeping task Sleep4)
    /\ heap w4 !! task = Some d
    /\ analysis_tasks w4 !! uuid4 = Some task
    /\ files w4 = <[stored_at w uuid4 file := content file]> (files w)
    /\ Task.task_id d = uuid4 /\ Task.status d = processing /\ Task.progress d = 80
    /\ Task.message d = "識別SQL執行模式..."
    /\ Task.file_path d = stored_at w uuid4 file
    /\ Task.file_name d = filename file /\ Task.start_time d = now
    /\ Task.result d = None /\ Task.error d = None /\ Task.end_time d = None.
Proof.
  intros Hext Hsize Ha2 Ha3 Ha4 i task w4. subst w4. cbn [serve_all].
  set (w0 := serve w (POST_analyze file uuid4 now None)).
  assert (H0 : background w0 !! i = Some (Scheduled uuid4)
               /\ (exists d0, heap w0 !! task = Some d0
                     /\ d0 = {| Task.task_id := uuid4; Task.status := pending;
                                Task.progress := 0; Task.message := "準備開始分析...";
                                Task.start_time := now;
                                Task.file_path := stored_at w uuid4 file;
                                Task.file_name := filename file;
                                Task.end_time := None; Task.result := None;
                                Task.error := None |})
               /\ analysis_tasks w0 !! uuid4 = Some task
               /\ files w0 = <[stored_at w uuid4 file := content file]> (files w)).
  { unfold w0. cbn [serve]. rewrite analyze_war_file_passed by done. simpl.
    rewrite !list_lookup_middle by done. rewrite lookup_insert_eq.
    split; [done|]. split; [by eexists|]. done. }
  destruct H0 as (Hb0 & (d0 & Hd0 & Ed0) & Hr0 & Hf0).
  destruct (wake_start w0 i uuid4 task d0 r1 Hb0 Hr0 Hd0) as (Hb1 & Hd1 & Hf1 & Hr1).
  set (w1 := serve w0 (Wake i r1)) in *.
  destruct (wake_stage w1 i task _ Sleep1 r2 _ _ _ Hb1 Hd1 Ha2 eq_refl)
    as (Hb2 & Hd2 & Hf2 & Hr2).
  set (w2 := serve w1 (Wake i r2)) in *.
  destruct (wake_stage w2 i task _ Sleep2 r3 _ _ _ Hb2 Hd2 Ha3 eq_refl)
    as (Hb3 & Hd3 & Hf3 & Hr3).
  set (w3 := serve w2 (Wake i r3)) in *.
  destruct (wake_stage w3 i task _ Sleep3 r4 _ _ _ Hb3 Hd3 Ha4 eq_refl)
    as (Hb4 & Hd4 & Hf4 & Hr4).
  set (w4 := serve w3 (Wake i r4)) in *.
  eexists. split; [exact Hb4|]. split; [exact Hd4|].
  split; [by rewrite Hr4, Hr3, Hr2, Hr1|].
  split; [by rewrite Hf4, Hf3, Hf2, Hf1|].
  subst d0. by repeat split.
Qed.

Lemma polled_through w tid task d :
  analysis_tasks w !! tid = Some task -> heap w !! task = Some d ->
  get_analysis_status w tid = Ok (projection d).
Proof. intros Ht Hd. unfold get_analysis_status. by rewrite Ht, Hd. Qed.

(** X13.  A valid upload of a readable archive, submitted in any state and
    followed by the five resumptions of its runner with nothing raised at
    the [await]s: the runner returns; the status endpoint then answers, for
    the identifier drawn, [completed] with progress 100 and the result of
    analysing the stored upload, whose class count is that of the archive's
    entries; and the temporary file is gone unless [os.remove] failed. *)
Theorem submission_runs_to_completion
    (w : world) (file : UploadFile) (uuid4 now : string)
    (r1 r2 r3 r4 r5 : resume) (names : list string) :
  Py.endswith (filename file) ".war" = true ->
  (content_length (content file) <= 100 * 1024 * 1024)%N ->
  zip_namelist (content file) = Return names ->
  awaited r2 = None -> awaited r3 = None -> awaited r4 = None -> awaited r5 = None ->
  let w' := submit_and_run w file uuid4 now r1 r2 r3 r4 r5 in
  let path := stored_at w uuid4 file in
  background w' !! length (background w) = Some Returned
  /\ (exists body result,
        get_analysis_status w' uuid4 = Ok body
        /\ AnalysisResult.task_id body = uuid4
        /\ AnalysisResult.status body = completed
        /\ AnalysisResult.progress body = 100
        /\ AnalysisResult.message body = "分析完成！"
        /\ AnalysisResult.result body = Some result
        /\ AnalysisResult.error body = None
        /\ analyze_war (<[path := content file]> (files w)) (analysis_clock r5) path
           = Return result
        /\ total_classes (war_info result)
           = length (List.filter (fun f => Py.endswith f ".class") names)
        /\ analysis_time result = analysis_clock r5)
  /\ (remove_fails r5 = false -> files w' !! path = None).
Proof.
  intros Hext Hsize Hzip Ha2 Ha3 Ha4 Ha5 w' path. subst w'.
  destruct (submit_and_four_stages w file uuid4 now r1 r2 r3 r4 Hext Hsize Ha2 Ha3 Ha4)
    as (d & Hb & Hd & Hr & Hf & Hid & Hst & Hp & Hm & Hpath & Hname & Hstart
        & Hres & Herr & Hend).
  unfold submit_and_run. cbn [serve_all] in *.
  set (i := length (background w)) in *. set (task := length (heap w)) in *.
  set (w4 := serve (serve (serve (serve (serve w _) _) _) _) _) in *.
  fold path in Hf, Hpath.
  assert (Hinfo : analyze_war_structure (files w4) path
                  = Return _) by
    (apply (analyze_war_structure_returns (files w4) path (content file) names);
       [by rewrite Hf, lookup_insert_eq | done]).
  assert (Han : exists result,
             analyze_war (files w4) (analysis_clock r5) (Task.file_path d) = Return result
             /\ total_classes (war_info result)
                = length (List.filter (fun f => Py.endswith f ".class") names)
             /\ analysis_time result = analysis_clock r5).
  { rewrite Hpath, analyze_war_unfold, Hinfo. eexists. split; [reflexivity|]. done. }
  destruct Han as (result & Han & Hclasses & Htime).
  destruct (finish_returns w4 task d r5 result Hd Han) as (F1 & F2 & F3 & F4).
  destruct (wake_finish w4 i task r5 Hb Ha5) as (G1 & G2 & G3 & G4).
  split; [by rewrite G1, F1|]. split.
  - eexists _, result. split.
    + apply (polled_through _ uuid4 task); [by rewrite G4, F4 | rewrite G2; exact F2].
    + simpl. rewrite Hid, Herr. repeat split; try done. by rewrite <- Hf, <- Hpath.
  - intros Hrm. rewrite G3, F3, Hrm, Hpath. apply lookup_delete_eq.
Qed.

(** X14.  The same run for an upload that [zipfile] refuses with an
    [Exception] of description [str_e]: the runner returns all the same; the
    status endpoint answers [failed] with progress 80, the message of the
    fourth stage, [str_e] as error and no result; and the temporary file is
    gone unless [os.remove] failed. *)
Theorem submission_of_unreadable_archive_fails
    (w : world) (file : UploadFile) (uuid4 now : string)
    (r1 r2 r3 r4 r5 : resume) (str_e : string) :
  Py.endswith (filename file) ".war" = true ->
  (content_length (content file) <= 100 * 1024 * 1024)%N ->
  zip_namelist (content file) = Raise (Exception str_e) ->
  awaited r2 = None -> awaited r3 = None -> awaited r4 = None -> awaited r5 = None ->
  let w' := submit_and_run w file uuid4 now r1 r2 r3 r4 r5 in
  let path := stored_at w uuid4 file in
  background w' !! length (background w) = Some Returned
  /\ (exists body,
        get_analysis_status w' uuid4 = Ok body
        /\ AnalysisResult.task_id body = uuid4
        /\ AnalysisResult.status body = failed
        /\ AnalysisResult.progress body = 80
        /\ AnalysisResult.message body = "識別SQL執行模式..."
        /\ AnalysisResult.result body = None
        /\ AnalysisResult.error body = Some str_e)
  /\ (remove_fails r5 = false -> files w' !! path = None).
Proof.
  intros Hext Hsize Hzip Ha2 Ha3 Ha4 Ha5 w' path. subst w'.
  destruct (submit_and_four_stages w file uuid4 now r1 r2 r3 r4 Hext Hsize Ha2 Ha3 Ha4)
    as (d & Hb & Hd & Hr & Hf & Hid & Hst & Hp & Hm & Hpath & Hname & Hstart
        & Hres & Herr & Hend).
  unfold submit_and_run. cbn [serve_all] in *.
  set (i := length (background w)) in *. set (task := length (heap w)) in *.
  set (w4 := serve (serve (serve (serve (serve w _) _) _) _) _) in *.
  fold path in Hf, Hpath.
  assert (Han : analyze_war (files w4) (analysis_clock r5) (Task.file_path d)
                = Raise (Exception str_e)).
  { rewrite Hpath.
    apply (analyze_war_raises_with_zipfile (files w4) (analysis_clock r5) path (content file));
      [by rewrite Hf, lookup_insert_eq | done]. }
  destruct (finish_raises w4 task d r5 str_e Hd Han) as (F1 & F2 & F3 & F4).
  destruct (wake_finish w4 i task r5 Hb Ha5) as (G1 & G2 & G3 & G4).
  split; [by rewrite G1, F1|]. split.
  - eexists. split.
    + apply (polled_through _ uuid4 task); [by rewrite G4, F4 | rewrite G2; exact F2].
    + simpl. rewrite Hid, Hp, Hm, Hres. done.
  - intros Hrm. rewrite G3, F3, Hrm, Hpath. apply lookup_delete_eq.
Qed.

Lemma submission_runs_to_completion_shop :
  let w' := submit_and_run (boot "/tmp" ∅) shop_war "7c2d" "2025-01-01T00:00:00"
              quiet quiet quiet quiet quiet in
  let path := stored_at (boot "/tmp" ∅) "7c2d" shop_war in
  background w' !! length (background (boot "/tmp" ∅)) = Some Returned
  /\ (exists body result,
        get_analysis_status w' "7c2d" = Ok body
        /\ AnalysisResult.task_id body = "7c2d"
        /\ AnalysisResult.status body = completed
        /\ AnalysisResult.progress body = 100
        /\ AnalysisResult.message body = "分析完成！"
        /\ AnalysisResult.result body = Some result
        /\ AnalysisResult.error body = None
        /\ analyze_war (<[path := content shop_war]> (files (boot "/tmp" ∅)))
             (analysis_clock quiet) path = Return result
        /\ total_classes (war_info result)
           = length (List.filter (fun f => Py.endswith f ".class") scenario_names)
        /\ analysis_time result = analysis_clock quiet)
  /\ (remove_fails quiet = false -> files w' !! path = None).
Proof.
  apply (submission_runs_to_completion (boot "/tmp" ∅) shop_war "7c2d"
           "2025-01-01T00:00:00" quiet quiet quiet quiet quiet scenario_names);
    try reflexivity.
  vm_compute. discriminate.
Defined.

Lemma submission_of_unreadable_archive_fails_broken :
  let file := unreadable_war (Exception "File is not a zip file") in
  let w' := submit_and_run (boot "/tmp" ∅) file "41aa" "2025-01-01T00:00:00"
              quiet quiet quiet quiet stuck in
  let path := stored_at (boot "/tmp" ∅) "41aa" file in
  background w' !! length (background (boot "/tmp" ∅)) = Some Returned
  /\ (exists body,
        get_analysis_status w' "41aa" = Ok body
        /\ AnalysisResult.task_id body = "41aa"
        /\ AnalysisResult.status body = failed
        /\ AnalysisResult.progress body = 80
        /\ AnalysisResult.message body = "識別SQL執行模式..."
        /\ AnalysisResult.result body = None
        /\ AnalysisResult.error body = Some "File is not a zip file")
  /\ (remove_fails stuck = false -> files w' !! path = None).
Proof.
  apply (submission_of_unreadable_archive_fails (boot "/tmp" ∅)
           (unreadable_war (Exception "File is not a zip file")) "41aa"
           "2025-01-01T00:00:00" quiet quiet quiet quiet stuck "File is not a zip file");
    try reflexivity.
  vm_compute. discriminate.
Defined.

(** ** Isolation of the tasks *)

Lemma cleanup_files_cases task r w :
  files (cleanup task r w) = files w
  \/ exists d, heap w !! task = Some d
               /\ files (cleanup task r w) = delete (Task.file_path d) (files w).
Proof.
  unfold cleanup. destruct (heap w !! task) as [d|]; [|by left].
  destruct (files w !! Task.file_path d); [|by left].
  destruct (remove_fails r); [by left|]. right. by exists d.
Qed.

Lemma on_raise_files_cases task r e w :
  files (on_raise task r e w).1 = files w
  \/ exists d, heap w !! task = Some d
               /\ files (on_raise task r e w).1 = delete (Task.file_path d) (files w).
Proof.
  destruct (heap w !! task) as [d|] eqn:Hd.
  - rewrite (on_raise_files w task d r e Hd). destruct (remove_fails r); [by left|].
    right. by exists d.
  - left. destruct e as [str_e|str_e]; simpl.
    + unfold cleanup. simpl. lookups. by rewrite Hd.
    + unfold cleanup. by rewrite Hd.
Qed.

Lemma perform_analysis_files_cases w rn r :
  files (perform_analysis w rn r).1 = files w
  \/ exists task d, target w rn = Some task /\ heap w !! task = Some d
                    /\ files (perform_analysis w rn r).1
                       = delete (Task.file_path d) (files w).
Proof.
  destruct rn as [tid|task k| |e]; simpl; try by left.
  - destruct (analysis_tasks w !! tid); by left.
  - assert (Hraise : forall e,
        files (on_raise task r e w).1 = files w
        \/ exists task0 d, Some task = Some task0 /\ heap w !! task0 = Some d
             /\ files (on_raise task r e w).1 = delete (Task.file_path d) (files w)).
    { intros e. destruct (on_raise_files_cases task r e w) as [H|(d & Hd & H)];
        [by left | right; by exists task, d]. }
    destruct (awaited r) as [e|]; [apply Hraise|].
    destruct k; simpl; try by left.
    destruct (heap w !! task) as [d|] eqn:Hd.
    + rewrite (finish_files w task d r Hd). destruct (remove_fails r); [by left|].
      right. by exists task, d.
    + left. unfold finish. by rewrite Hd.
Qed.

(** X15.  Resuming a runner writes to one task only: every dict but the
    one the runner holds is as before, and so are the registry and the other
    background invocations; no file is created, and the only file that can
    disappear is the temporary file of the runner's own task. *)
Theorem resumption_touches_one_task (w : world) (i : nat) (r : resume) (rn : runner) :
  background w !! i = Some rn ->
  let w' := serve w (Wake i r) in
  (forall task, target w rn <> Some task -> heap w' !! task = heap w !! task)
  /\ analysis_tasks w' = analysis_tasks w
  /\ (forall j, j <> i -> background w' !! j = background w !! j)
  /\ (forall path, files w !! path = None -> files w' !! path = None)
  /\ (forall path,
        files w' !! path <> files w !! path ->
        exists task d, target w rn = Some task /\ heap w !! task = Some d
                       /\ path = Task.file_path d).
Proof.
  intros Hi w'. subst w'. rewrite (wake_at w i rn r Hi).
  destruct (perform_analysis_writes w rn r) as ((f & _ & Hheap) & Hbg & _).
  pose proof (perform_analysis_registry w rn r) as Hreg.
  pose proof (perform_analysis_files_cases w rn r) as Hfiles.
  destruct (perform_analysis w rn r) as [w1 rn1]. simpl in *.
  split; [|split; [|split; [|split]]].
  - intros task Hne. rewrite Hheap. destruct (target w rn) as [t|]; [|done].
    apply list_lookup_alter_ne. congruence.
  - done.
  - intros j Hne. rewrite Hbg. by apply list_lookup_insert_ne.
  - intros path Hnone. destruct Hfiles as [->|(task & d & _ & _ & ->)]; [done|].
    destruct (decide (Task.file_path d = path)) as [->|Hne].
    + apply lookup_delete_eq.
    + by rewrite lookup_delete_ne.
  - intros path Hdiff. destruct Hfiles as [E|(task & d & Ht & Hd & E)];
      rewrite E in Hdiff; [done|].
    exists task, d. split; [done|]. split; [done|].
    destruct (decide (Task.file_path d = path)) as [->|Hne]; [done|].
    by rewrite lookup_delete_ne in Hdiff.
Qed.

Lemma resumption_touches_one_task_two_stages_in :
  let w' := serve two_stages_in (Wake 0 quiet) in
  (forall task, target two_stages_in (Sleeping 0 Sleep2) <> Some task ->
                heap w' !! task = heap two_stages_in !! task)
  /\ analysis_tasks w' = analysis_tasks two_stages_in
  /\ (forall j, j <> 0 -> background w' !! j = background two_stages_in !! j)
  /\ (forall path, files two_stages_in !! path = None -> files w' !! path = None)
  /\ (forall path,
        files w' !! path <> files two_stages_in !! path ->
        exists task d, target two_stages_in (Sleeping 0 Sleep2) = Some task
                       /\ heap two_stages_in !! task = Some d
                       /\ path = Task.file_path d).
Proof.
  apply (resumption_touches_one_task two_stages_in 0 quiet (Sleeping 0 Sleep2)).
  vm_compute. reflexivity.
Defined.

(** ** Termination of the runners *)

Lemma perform_analysis_remaining w rn r :
  remaining (perform_analysis w rn r).2 <= remaining rn - 1
  /\ (ended rn -> (perform_analysis w rn r).2 = rn).
Proof.
  destruct rn as [tid|task k| |e]; simpl.
  - split; [|by intros [[=]|[e [=]]]].
    destruct (analysis_tasks w !! tid); simpl; lia.
  - split; [|by intros [[=]|[e [=]]]].
    assert (Hraise : forall e, remaining (on_raise task r e w).2 = 0)
      by (intros [?|?]; done).
    destruct (awaited r) as [e|]; [rewrite Hraise; lia|].
    destruct k; simpl; try lia. unfold finish.
    destruct (heap w !! task) as [d|]; [|simpl; lia].
    destruct (analyze_war _ _ _); [simpl; lia | rewrite Hraise; lia].
  - split; [lia | done].
  - split; [lia | done].
Qed.

Lemma serve_runner w q i rn :
  background w !! i = Some rn ->
  exists rn', background (serve w q) !! i = Some rn'
              /\ remaining rn' <= remaining rn - wakes i [q]
              /\ (ended rn -> rn' = rn).
Proof.
  intros Hi. destruct q as [file uuid4 now write_error|tid|j r].
  - exists rn. simpl. split; [|split; [lia | done]].
    destruct (analyze_war_file_cases w file uuid4 now write_error)
      as [->|(d0 & -> & _)]; [done|]. simpl. by apply lookup_app_l_Some.
  - exists rn. simpl. split; [done|]. split; [lia | done].
  - destruct (decide (i = j)) as [<-|Hne].
    + rewrite (wake_at w i rn r Hi).
      destruct (perform_analysis_writes w rn r) as (_ & Hbg & _).
      destruct (perform_analysis_remaining w rn r) as [Hrem Hend].
      exists (perform_analysis w rn r).2. split.
      * apply set_runner_lookup. rewrite Hbg. by eapply lookup_lt_Some.
      * simpl. rewrite Nat.eqb_refl. split; [lia | done].
    + exists rn. simpl. rewrite (proj2 (Nat.eqb_neq i j) Hne).
      split; [|split; [lia | done]].
      destruct (background w !! j) as [rnj|] eqn:Hj; [|done].
      destruct (perform_analysis_writes w rnj r) as (_ & Hbg & _).
      destruct (perform_analysis w rnj r) as [w1 rn1]. simpl in *.
      rewrite Hbg. by rewrite list_lookup_insert_ne.
Qed.

(** X16.  Whatever else happens in between, a background invocation is
    over after five resumptions: each resumption brings it at least one step
    closer to its end, other requests leave it where it is, and once it has
    returned or let an exception out it stays so. *)
Theorem runner_ends_within_five_resumptions
    (qs : list request) (w : world) (i : nat) (rn : runner) :
  background w !! i = Some rn ->
  exists rn',
    background (serve_all w qs) !! i = Some rn'
    /\ remaining rn' <= remaining rn - wakes i qs
    /\ (5 <= wakes i qs -> ended rn')
    /\ (ended rn -> rn' = rn).
Proof.
  revert w rn. induction qs as [|q qs IH]; intros w rn Hi.
  - exists rn. simpl. split; [done|]. split; [lia|]. split; [lia | done].
  - destruct (serve_runner w q i rn Hi) as (rn1 & Hi1 & Hrem1 & Hend1).
    destruct (IH (serve w q) rn1 Hi1) as (rn' & Hi' & Hrem' & _ & Hend').
    assert (Hw : wakes i (q :: qs) = wakes i [q] + wakes i qs).
    { destruct q; simpl; lia. }
    assert (Hrem : remaining rn' <= remaining rn - wakes i (q :: qs)) by lia.
    exists rn'. split; [done|]. split; [done|]. split.
    + intros H5. assert (remaining rn' = 0) as H0.
      { pose proof (perform_analysis_remaining w rn quiet).
        assert (remaining rn <= 5) by (destruct rn as [|? []| |]; simpl; lia). lia. }
      destruct rn' as [|? []| |e]; simpl in H0; try lia; [by left | right; by eexists].
    + intros He. pose proof (Hend1 He) as E1. subst rn1. by apply Hend'.
Qed.

Lemma runner_ends_within_five_resumptions_busy :
  exists rn',
    background (serve_all just_submitted busy_run) !! 0 = Some rn'
    /\ remaining rn' <= remaining (Scheduled "7c2d") - wakes 0 busy_run
    /\ (5 <= wakes 0 busy_run -> ended rn')
    /\ (ended (Scheduled "7c2d") -> rn' = Scheduled "7c2d").
Proof.
  apply (runner_ends_within_five_resumptions busy_run just_submitted 0).
  vm_compute. reflexivity.
Defined.

(** ** The status endpoint and the registry *)

(** X17.  In a reachable state (identifiers drawn by [uuid4] being new) the
    status endpoint answers 404 exactly for the identifiers that are not in
    the registry and never fails otherwise: for a registered identifier it
    answers with that very identifier and a progress of at most 100. *)
Theorem status_endpoint_answers (w : world) (tid : string) :
  reachable w ->
  (get_analysis_status w tid = HTTPException 404 "任務不存在"
     <-> analysis_tasks w !! tid = None)
  /\ (forall e, get_analysis_status w tid <> Unhandled e)
  /\ (forall body, get_analysis_status w tid = Ok body ->
        AnalysisResult.task_id body = tid /\ AnalysisResult.progress body <= 100)
  /\ (is_Some (analysis_tasks w !! tid) -> exists body, get_analysis_status w tid = Ok body).
Proof.
  intros Hc%reachable_consistent. unfold get_analysis_status.
  destruct (analysis_tasks w !! tid) as [task|] eqn:Ht.
  - destruct (bound_tasks w Hc tid task Ht) as (d & Hd & Hid). rewrite Hd.
    split; [split; done|]. split; [done|]. split; [|by eexists].
    intros body [= <-]. simpl. split; [done|].
    pose proof (tasks_ok w Hc task d Hd) as Hok. unfold task_ok in Hok.
    destruct (Task.status d); destruct Hok as (Hp & _).
    + lia.
    + destruct Hp as [[] ->]; simpl; lia.
    + lia.
    + destruct Hp as [[] ->]; simpl; lia.
  - split; [done|]. split; [done|]. split; [done|]. by intros [? [=]].
Qed.

Lemma status_endpoint_answers_two_stages_in :
  (get_analysis_status two_stages_in "7c2d" = HTTPException 404 "任務不存在"
     <-> analysis_tasks two_stages_in !! "7c2d" = None)
  /\ (forall e, get_analysis_status two_stages_in "7c2d" <> Unhandled e)
  /\ (forall body, get_analysis_status two_stages_in "7c2d" = Ok body ->
        AnalysisResult.task_id body = "7c2d" /\ AnalysisResult.progress body <= 100)
  /\ (is_Some (analysis_tasks two_stages_in !! "7c2d") ->
      exists body, get_analysis_status two_stages_in "7c2d" = Ok body).
Proof. exact (status_endpoint_answers two_stages_in "7c2d" two_stages_in_reachable). Defined.

Lemma accounted_serve w q : unused w q = true -> accounted w -> accounted (serve w q).
Proof.
  intros Hq (Hbound & Hsize & Hbg). destruct q as [file uuid4 now write_error|tid|i r].
  - simpl in Hq. apply bool_decide_eq_true in Hq. simpl.
    destruct (analyze_war_file_cases w file uuid4 now write_error)
      as [->|(d0 & -> & Hid & _)]; [done|].
    split; [|split]; simpl.
    + intros task d [Hd|[Hle Hd]]%lookup_app_Some.
      * pose proof (Hbound task d Hd) as Hb. rewrite lookup_insert_ne; [done|].
        intros E. rewrite E in Hq. congruence.
      * destruct (task - length (heap w)) as [|k] eqn:Ek; [|done].
        injection Hd as <-. rewrite Hid, lookup_insert_eq. f_equal. lia.
    + rewrite map_size_insert_None by done. rewrite length_app. simpl. lia.
    + rewrite !length_app. simpl. lia.
  - done.
  - simpl. destruct (background w !! i) as [rn|] eqn:Hi; [|done].
    destruct (perform_analysis_writes w rn r) as ((f & Hf & Hheap) & Hb & _).
    pose proof (perform_analysis_registry w rn r) as Hreg.
    destruct (perform_analysis w rn r) as [w1 rn1]. simpl in *.
    split; [|split]; simpl.
    + rewrite Hreg, Hheap. destruct (target w rn) as [t|]; [|done].
      intros task d' Hd'. destruct (decide (t = task)) as [->|Hne].
      * rewrite list_lookup_alter_eq in Hd'.
        destruct (heap w !! task) as [d|] eqn:Hd; [|done]. injection Hd' as <-.
        destruct (Hf d) as ((-> & _) & _). by apply Hbound.
      * rewrite list_lookup_alter_ne in Hd' by done. by apply Hbound.
    + rewrite Hreg, Hheap. destruct (target w rn); rewrite ?length_alter; done.
    + rewrite length_insert, Hb, Hheap.
      destruct (target w rn); rewrite ?length_alter; done.
Qed.

(** X18.  In a reachable state (identifiers drawn by [uuid4] being new)
    every task dict is bound in the registry under its own [task_id], and
    there are exactly as many registry entries and as many background
    invocations as task dicts: one of each per accepted submission. *)
Theorem every_task_is_registered (w : world) :
  reachable w ->
  (forall task d, heap w !! task = Some d ->
     analysis_tasks w !! Task.task_id d = Some task)
  /\ size (analysis_tasks w) = length (heap w)
  /\ length (background w) = length (heap w).
Proof.
  intros (tmp & fs & qs & Hqs & ->).
  assert (H0 : accounted (boot tmp fs)) by (split; [done | split; done]).
  revert H0 Hqs. generalize (boot tmp fs).
  induction qs as [|q qs IH]; intros w Hw Hqs; simpl in *; [done|].
  apply andb_prop in Hqs as [Hq Hqs]. by apply IH; [apply accounted_serve|].
Qed.

Lemma every_task_is_registered_two_stages_in :
  (forall task d, heap two_stages_in !! task = Some d ->
     analysis_tasks two_stages_in !! Task.task_id d = Some task)
  /\ size (analysis_tasks two_stages_in) = length (heap two_stages_in)
  /\ length (background two_stages_in) = length (heap two_stages_in).
Proof. exact (every_task_is_registered two_stages_in two_stages_in_reachable). Defined.

(** ** Exceptions the runner does not catch *)

(** X19.  An exception that is not an instance of [Exception], raised by
    an [await] or by the analysis, leaves the runner with that exception;
    no dict is written, so the task keeps its status and progress; the
    [finally] block still removes the temporary file unless [os.remove]
    failed. *)
Theorem uncaught_exception_leaves_task_as_it_is
    (w : world) (task : nat) (d : Task.t) (at_ : sleep) (r : resume) (str_e : string) :
  heap w !! task = Some d ->
  awaited r = Some (BaseException str_e)
  \/ (awaited r = None /\ at_ = Sleep4
      /\ analyze_war (files w) (analysis_clock r) (Task.file_path d)
         = Raise (BaseException str_e)) ->
  let after := perform_analysis w (Sleeping task at_) r in
  after.2 = Propagated (BaseException str_e)
  /\ heap after.1 = heap w
  /\ analysis_tasks after.1 = analysis_tasks w
  /\ (remove_fails r = false -> files after.1 !! Task.file_path d = None)
  /\ (remove_fails r = true -> files after.1 = files w).
Proof.
  intros Hd Hraise after. subst after.
  assert (Hon : perform_analysis w (Sleeping task at_) r
                = on_raise task r (BaseException str_e) w).
  { cbn [perform_analysis]. destruct Hraise as [->|(-> & -> & Han)]; [done|].
    unfold finish. by rewrite Hd, Han. }
  rewrite Hon. simpl. rewrite cleanup_heap.
  destruct (cleanup_keeps task r w) as (_ & -> & _).
  rewrite (cleanup_files task r w d Hd).
  split; [done|]. split; [done|]. split; [done|]. split.
  - intros ->. apply lookup_delete_eq.
  - by intros ->.
Qed.

Lemma uncaught_exception_leaves_task_as_it_is_two_stages_in :
  exists d,
    heap two_stages_in !! 0 = Some d
    /\ let after := perform_analysis two_stages_in (Sleeping 0 Sleep2)
                      (raising (BaseException "")) in
       after.2 = Propagated (BaseException "")
       /\ heap after.1 = heap two_stages_in
       /\ analysis_tasks after.1 = analysis_tasks two_stages_in
       /\ (remove_fails (raising (BaseException "")) = false ->
           files after.1 !! Task.file_path d = None)
       /\ (remove_fails (raising (BaseException "")) = true ->
           files after.1 = files two_stages_in).
Proof.
  eexists. split; [vm_compute; reflexivity|].
  apply (uncaught_exception_leaves_task_as_it_is two_stages_in 0).
  - vm_compute. reflexivity.
  - left. reflexivity.
Defined.

(** ** The name under which an upload is analysed *)

Lemma basename_plain name : Py.contains "/" name = false -> Py.basename name = name.
Proof. destruct name as [|c name]; [done|]. simpl. by intros ->. Qed.

Lemma basename_after_slash pre name :
  Py.contains "/" name = false ->
  Py.basename ((pre +:+ "/") +:+ name) = name.
Proof.
  intros Hname. induction pre as [|c pre IH].
  - simpl. by apply basename_plain.
  - change (Py.basename ((String c pre +:+ "/") +:+ name))
      with (if Py.contains "/" (String c ((pre +:+ "/") +:+ name))
            then Py.basename ((pre +:+ "/") +:+ name)
            else String c ((pre +:+ "/") +:+ name)).
    assert (Py.contains "/" (String c ((pre +:+ "/") +:+ name)) = true) as ->; [|done].
    apply contains_spec. exists (String c pre), name. simpl.
    by rewrite string_app_assoc.
Qed.

Lemma basename_path_join tmp name :
  Py.contains "/" name = false -> Py.basename (Py.path_join tmp name) = name.
Proof.
  intros Hname. unfold Py.path_join.
  destruct (Py.startswith name "/") eqn:Hs.
  { apply startswith_spec in Hs as [q ->].
    assert (Py.contains "/" ("/" +:+ q) = true) by (apply contains_spec; by exists "", q).
    congruence. }
  destruct (String.eqb_spec tmp "") as [->|Hne].
  { by apply basename_plain. }
  destruct (Py.endswith tmp "/") eqn:He; cbn [orb].
  - apply endswith_spec in He as [p ->]. by apply basename_after_slash.
  - rewrite <- string_app_assoc. by apply basename_after_slash.
Qed.

(** X20.  The archive name recorded for an upload is not the name it was
    uploaded under: when the file name has no ['/'], the analysis of the
    stored file reports [<task id>_<file name>] as its file name, and for a
    file name [stem.war] with no other [.war] in the stored name the project
    name is [<task id>_<stem>]. *)
Theorem analysed_name_carries_task_id
    (w : world) (fs : gmap string file_content) (file : UploadFile)
    (uuid4 now : string) (result : WarAnalysis) :
  Py.contains "/" (uuid4 +:+ "_" +:+ filename file) = false ->
  analyze_war fs now (stored_at w uuid4 file) = Return result ->
  file_name (war_info result) = uuid4 +:+ "_" +:+ filename file
  /\ (forall stem,
        filename file = stem +:+ ".war" ->
        Py.contains ".war" (uuid4 +:+ "_" +:+ stem +:+ ".wa") = false ->
        project_name result = uuid4 +:+ "_" +:+ stem).
Proof.
  intros Hslash. rewrite analyze_war_unfold.
  destruct (analyze_war_structure fs (stored_at w uuid4 file)) as [info|e] eqn:Hs; [|done].
  intros <-%Return_inj. cbn [war_info project_name].
  assert (file_name info = uuid4 +:+ "_" +:+ filename file) as ->.
  { unfold analyze_war_structure in Hs.
    destruct (getsize fs _); [|done]. destruct (namelist fs _); [|done].
    simpl in Hs. destruct (List.filter _ _); injection Hs as <-; simpl;
      by apply basename_path_join. }
  split; [done|]. intros stem -> Hplain.
  replace (uuid4 +:+ "_" +:+ stem +:+ ".war") with ((uuid4 +:+ "_" +:+ stem) +:+ ".war")
    by (by rewrite !string_app_assoc).
  apply replace_plain_name. by rewrite !string_app_assoc.
Qed.

Lemma analysed_name_carries_task_id_shop :
  exists result,
    analyze_war {[ "/tmp/7c2d_shop.war" := scenario_war ]} "2025-01-01T00:00:07"
      (stored_at (boot "/tmp" ∅) "7c2d" shop_war) = Return result
    /\ file_name (war_info result) = "7c2d" +:+ "_" +:+ filename shop_war
    /\ (forall stem,
          filename shop_war = stem +:+ ".war" ->
          Py.contains ".war" ("7c2d" +:+ "_" +:+ stem +:+ ".wa") = false ->
          project_name result = "7c2d" +:+ "_" +:+ stem).
Proof.
  eexists. split; [vm_compute; reflexivity|].
  apply (analysed_name_carries_task_id (boot "/tmp" ∅)
           {[ "/tmp/7c2d_shop.war" := scenario_war ]} shop_war "7c2d" "2025-01-01T00:00:07");
    vm_compute; reflexivity.
Defined.
